(** * transx: rsync/ssh data-migration orchestration

    A shallow embedding of [transx.go]: the endpoint model,
    [Validate], the transfer engine [Transfer] (direct and relay), the
    command executor [executeCommand] and the phases [Backup], [Restore],
    [MigrateData].

    Go strings are byte strings: [string] (a list of [ascii] bytes).
    Go's [int] is modelled by [Z]; the program never does arithmetic on
    it (it only compares [SSHPort] with constants and prints it), so no
    wrap-around arises.  Effects (running a command, creating and
    removing the relay directory, writing to standard output) are threaded
    through an explicit [World]. *)

From Stdlib Require Import String Ascii ZArith List Bool Lia DecimalString.
Import ListNotations.

Local Open Scope string_scope.
Local Open Scope Z_scope.

(** ** The parts of Go's standard library the package calls *)

(** [unicode/utf8]: decoding of one rune at the front and at the back of a
    byte string.  An ill-formed sequence decodes as [RuneError] of
    width 1, as in Go. *)
Module utf8.

Definition RuneError : Z := 0xFFFD.
Definition RuneSelf : Z := 0x80.
Definition UTFMax : nat := 4.

Definition byte (c : ascii) : Z := Z.of_N (N_of_ascii c).

Definition between (lo hi b : Z) : bool := (lo <=? b) && (b <=? hi).

(** continuation byte, [locb <= b <= hicb] *)
Definition cont (b : Z) : bool := between 0x80 0xBF b.

Definition low6 (b : Z) : Z := Z.land b 0x3F.

Definition DecodeRuneInString (s : string) : Z * nat :=
  match s with
  | EmptyString => (RuneError, 0%nat)
  | String c0 t0 =>
    let s0 := byte c0 in
    if s0 <? RuneSelf then (s0, 1%nat)
    else if between 0xC2 0xDF s0 then
      match t0 with
      | String c1 _ =>
        let s1 := byte c1 in
        if cont s1
        then (Z.lor (Z.shiftl (Z.land s0 0x1F) 6) (low6 s1), 2%nat)
        else (RuneError, 1%nat)
      | _ => (RuneError, 1%nat)
      end
    else if between 0xE0 0xEF s0 then
      match t0 with
      | String c1 (String c2 _) =>
        let s1 := byte c1 in
        let s2 := byte c2 in
        let lo := if s0 =? 0xE0 then 0xA0 else 0x80 in
        let hi := if s0 =? 0xED then 0x9F else 0xBF in
        if between lo hi s1 && cont s2
        then (Z.lor (Z.shiftl (Z.land s0 0x0F) 12)
               (Z.lor (Z.shiftl (low6 s1) 6) (low6 s2)), 3%nat)
        else (RuneError, 1%nat)
      | _ => (RuneError, 1%nat)
      end
    else if between 0xF0 0xF4 s0 then
      match t0 with
      | String c1 (String c2 (String c3 _)) =>
        let s1 := byte c1 in
        let s2 := byte c2 in
        let s3 := byte c3 in
        let lo := if s0 =? 0xF0 then 0x90 else 0x80 in
        let hi := if s0 =? 0xF4 then 0x8F else 0xBF in
        if between lo hi s1 && cont s2 && cont s3
        then (Z.lor (Z.shiftl (Z.land s0 0x07) 18)
               (Z.lor (Z.shiftl (low6 s1) 12)
                 (Z.lor (Z.shiftl (low6 s2) 6) (low6 s3))), 4%nat)
        else (RuneError, 1%nat)
      | _ => (RuneError, 1%nat)
      end
    else (RuneError, 1%nat)
  end.

(** [RuneStart b]: [b] is not a continuation byte. *)
Definition RuneStart (b : Z) : bool := negb (Z.land b 0xC0 =? 0x80).

(** The backwards scan of [DecodeLastRuneInString]: starting below the
    last byte, go down to the nearest rune start, at most [n] bytes. *)
Fixpoint lastStart (n : nat) (start : nat) (s : string) : nat :=
  match n with
  | O => start
  | S n' =>
    match start with
    | O => O
    | S start' =>
      match get start' s with
      | Some c => if RuneStart (byte c) then start' else lastStart n' start' s
      | None => start'
      end
    end
  end.

Definition DecodeLastRuneInString (s : string) : Z * nat :=
  let e := String.length s in
  match e with
  | O => (RuneError, 0%nat)
  | S start =>
    match get start s with
    | None => (RuneError, 0%nat)
    | Some c =>
      let r := byte c in
      if r <? RuneSelf then (r, 1%nat)
      else
        let start := lastStart (UTFMax - 1) start s in
        let (r, size) := DecodeRuneInString (substring start (e - start) s) in
        if Nat.eqb (start + size) e then (r, size) else (RuneError, 1%nat)
    end
  end.

End utf8.

Module unicode.

(** [unicode.IsSpace]: the Latin-1 cases of the switch, then the
    [White_Space] range table. *)
Definition IsSpace (r : Z) : bool :=
  if (0 <=? r) && (r <=? 0xFF) then
    (r =? 0x09) || (r =? 0x0A) || (r =? 0x0B) || (r =? 0x0C) || (r =? 0x0D)
    || (r =? 0x20) || (r =? 0x85) || (r =? 0xA0)
  else
    (r =? 0x1680) || ((0x2000 <=? r) && (r <=? 0x200A))
    || (r =? 0x2028) || (r =? 0x2029) || (r =? 0x202F) || (r =? 0x205F)
    || (r =? 0x3000).

End unicode.

Module strings.

(** [s[n:]] *)
Definition from (n : nat) (s : string) : string :=
  substring n (String.length s - n) s.

(** [TrimLeftFunc(s, unicode.IsSpace)].  Every step drops at least one
    byte, so [String.length s] steps always suffice. *)
Fixpoint trimLeft (fuel : nat) (s : string) : string :=
  match fuel with
  | O => s
  | S fuel' =>
    match s with
    | EmptyString => EmptyString
    | _ =>
      let (r, size) := utf8.DecodeRuneInString s in
      if unicode.IsSpace r then trimLeft fuel' (from size s) else s
    end
  end.

(** [TrimRightFunc(s, unicode.IsSpace)], on the prefix [s[0:i]]. *)
Fixpoint trimRight (fuel : nat) (s : string) : string :=
  match fuel with
  | O => s
  | S fuel' =>
    match s with
    | EmptyString => EmptyString
    | _ =>
      let (r, size) := utf8.DecodeLastRuneInString s in
      if unicode.IsSpace r
      then trimRight fuel' (substring 0 (String.length s - size) s)
      else s
    end
  end.

(** [strings.TrimSpace]: leading and trailing white space, as defined by
    Unicode, removed. *)
Definition TrimSpace (s : string) : string :=
  let l := trimLeft (String.length s) s in
  trimRight (String.length l) l.

(** [strings.Contains(s, substr)] *)
Fixpoint Contains (s substr : string) : bool :=
  prefix substr s
  || match s with
     | EmptyString => false
     | String _ t => Contains t substr
     end.

(** [strings.Join(elems, sep)] *)
Definition Join (elems : list string) (sep : string) : string :=
  String.concat sep elems.

End strings.

Module strconv.

(** [strconv.Itoa]: base-10 text, a leading minus sign when negative. *)
Definition Itoa (i : Z) : string := NilZero.string_of_int (Z.to_int i).

End strconv.

(** The comparisons [s == ""] and [s != ""], and the test
    [strings.TrimSpace(s) != ""] that the package uses throughout. *)
Definition isEmpty (s : string) : bool := String.eqb s "".
Definition nonEmpty (s : string) : bool := negb (isEmpty s).
Definition nonBlank (s : string) : bool := nonEmpty (strings.TrimSpace s).

(** Go's [append(s, elems...)] on slices. *)
Definition append {A} (s elems : list A) : list A := (s ++ elems)%list.

(** The line feed of the format strings. *)
Definition nl : string := String (ascii_of_nat 10) EmptyString.

(** ** Data model *)

Record EndpointDetails := {
  Username : string;
  HostIP : string;
  SSHPort : Z;
  DataPath : string;
  SSHPrivateKeyPath : string;
  BackupCmd : string;
  RestoreCmd : string
}.

Record RsyncOption := {
  Compress : bool;
  Archive : bool;
  Verbose : bool;
  Delete : bool;
  Progress : bool;
  DryRun : bool;
  RsyncPath : string;
  Exclude : list string;
  Include : list string;
  InsecureSkipHostKeyVerification : bool
}.

Record DataMigrationModel := {
  Source : EndpointDetails;
  Destination : EndpointDetails;
  RsyncOptions : RsyncOption
}.

(** The zero value of [EndpointDetails] ([var e EndpointDetails]). *)
Definition zeroEndpoint : EndpointDetails :=
  {| Username := ""; HostIP := ""; SSHPort := 0; DataPath := "";
     SSHPrivateKeyPath := ""; BackupCmd := ""; RestoreCmd := "" |}.

(** ** Errors

    [fmt.Errorf] without [%w] makes a plain error, with [%w] it wraps the
    error it is given; [os] and [os/exec] return errors of their own. *)
Inductive error :=
| Errorf (msg : string)
| Wrapf (before : string) (err : error) (after : string)
| OSError (msg : string).

(** [err.Error()] *)
Fixpoint Error (e : error) : string :=
  match e with
  | Errorf msg => msg
  | Wrapf before err after => before ++ Error err ++ after
  | OSError msg => msg
  end.

(** ** Endpoint model and validation (pure) *)

Definition isRemote (e : EndpointDetails) : bool :=
  nonBlank e.(HostIP).

Definition getRsyncPath (e : EndpointDetails) : string :=
  if isRemote e then
    if nonBlank e.(Username)
    then e.(Username) ++ "@" ++ e.(HostIP) ++ ":" ++ e.(DataPath)
    else e.(HostIP) ++ ":" ++ e.(DataPath)
  else e.(DataPath).

Definition IsRelayMode (task : DataMigrationModel) : bool :=
  isRemote task.(Source) && isRemote task.(Destination).

(** A Go function body that is a run of [if cond { return err }]
    statements: the first failing check decides, [None] is [nil]. *)
Definition failIf (cond : bool) (err : error) : option error :=
  if cond then Some err else None.

Definition andThen (first next : option error) : option error :=
  match first with
  | Some err => Some err
  | None => next
  end.

Infix ">>" := andThen (at level 61, right associativity).

Definition portOutOfRange (port : Z) : bool :=
  negb (port =? 0) && ((port <? 1) || (port >? 65535)).

Definition Validate (task : DataMigrationModel) : option error :=
  let sourceRsyncPath := getRsyncPath task.(Source) in
  let destRsyncPath := getRsyncPath task.(Destination) in
  failIf (isEmpty (strings.TrimSpace sourceRsyncPath)
          || isEmpty (strings.TrimSpace task.(Source).(DataPath)))
         (Errorf "source path must be provided for rsync task") >>
  failIf (isEmpty (strings.TrimSpace destRsyncPath)
          || isEmpty (strings.TrimSpace task.(Destination).(DataPath)))
         (Errorf "destination path must be provided for rsync task") >>
  (if isRemote task.(Source) then
     failIf (portOutOfRange task.(Source).(SSHPort))
            (Errorf ("source SSH port "
                     ++ strconv.Itoa task.(Source).(SSHPort)
                     ++ " is out of valid range (1-65535)")) >>
     failIf (isEmpty (strings.TrimSpace task.(Source).(HostIP)))
            (Errorf "source HostIP must be provided for remote rsync task")
   else None) >>
  (if isRemote task.(Destination) then
     failIf (portOutOfRange task.(Destination).(SSHPort))
            (Errorf ("destination SSH port "
                     ++ strconv.Itoa task.(Destination).(SSHPort)
                     ++ " is out of valid range (1-65535)")) >>
     failIf (isEmpty (strings.TrimSpace task.(Destination).(HostIP)))
            (Errorf "destination HostIP must be provided for remote rsync task")
   else None).

(** ** The world outside the process

    What the package does to its environment is recorded, in order, in
    [events]; [tempDirs] are the directories made by [os.MkdirTemp] that
    still exist.  [EvExec name args] records a call
    [exec.Command(name, args...).CombinedOutput()]: the call is recorded
    whether the program ran or could not even be started (what happened
    is in the error the call returns).  [EvRemoveAll path] records a call
    [os.RemoveAll(path)], whether or not it removed anything. *)
Inductive Event :=
| EvStdout (text : string)
| EvExec (name : string) (args : list string)
| EvMkdirTemp (dir : string)
| EvRemoveAll (path : string).

Record World := {
  events : list Event;
  tempDirs : list string
}.

Definition log (ev : Event) (w : World) : World :=
  {| events := append w.(events) [ev]; tempDirs := w.(tempDirs) |}.

(** The operating system, as far as the package can tell: what running a
    command returns (combined output, and the error text when [err != nil],
    be it a non-zero exit or a program that could not be started), what
    [os.MkdirTemp] returns (the new directory, or the error text) and what
    [os.RemoveAll] returns ([None] when the tree is gone, the error text
    when it could not be removed).  All may depend on everything that
    happened before. *)
Record OS := {
  runCommand : World -> string -> list string -> string * option string;
  makeTempDir : World -> string -> string -> string + string;
  removeTree : World -> string -> option string
}.

(** Computations that act on the world. *)
Definition IO (A : Type) : Type := World -> A * World.

Definition ret {A} (a : A) : IO A := fun w => (a, w).

Definition bind {A B} (m : IO A) (k : A -> IO B) : IO B :=
  fun w => let (a, w') := m w in k a w'.

Notation "x <- m ;; k" := (bind m (fun x => k))
  (at level 100, m at next level, right associativity).
Notation "' pat <- m ;; k" :=
  (bind m (fun x => match x with pat => k end))
  (at level 100, pat pattern, m at next level, right associativity).
Notation "m ;; k" := (bind m (fun _ => k))
  (at level 100, right associativity).

(** [defer cleanup] in a function that does not panic: the body computes
    the results, then the deferred call runs, then the function returns. *)
Definition defer {A} (cleanup : IO unit) (body : IO A) : IO A :=
  r <- body ;; cleanup ;; ret r.

Section Effects.

Variable os : OS.

(** [fmt.Printf], [fmt.Println] (the text includes the line feed) *)
Definition Printf (text : string) : IO unit :=
  fun w => (tt, log (EvStdout text) w).

(** [exec.Command(name, args...).CombinedOutput()].  The event records the
    call; whether the program ran and failed or could not be started at
    all shows only in the error returned. *)
Definition CombinedOutput (name : string) (args : list string)
  : IO (string * option error) :=
  fun w =>
    let (output, err) := os.(runCommand) w name args in
    ((output, option_map OSError err), log (EvExec name args) w).

(** [os.MkdirTemp(dir, pattern)] *)
Definition MkdirTemp (dir pattern : string) : IO (string * option error) :=
  fun w =>
    match os.(makeTempDir) w dir pattern with
    | inl name =>
      ((name, None),
       {| events := append w.(events) [EvMkdirTemp name];
          tempDirs := name :: w.(tempDirs) |})
    | inr msg => (("", Some (OSError msg)), w)
    end.

(** [os.RemoveAll(path)].  The package drops the error it returns
    ([defer os.RemoveAll(tempDir)]), so nothing is returned here; when the
    removal fails the directory is still there. *)
Definition RemoveAll (path : string) : IO unit :=
  fun w =>
    (tt, {| events := append w.(events) [EvRemoveAll path];
            tempDirs :=
              match os.(removeTree) w path with
              | None => filter (fun d => negb (String.eqb d path))
                               w.(tempDirs)
              | Some _ => w.(tempDirs)
              end |}).

(** *** [Transfer] *)

(** [rsyncCmdPath], lines 120-123 of transx.go *)
Definition rsyncCmdPath (task : DataMigrationModel) : string :=
  if isEmpty task.(RsyncOptions).(RsyncPath)
  then "rsync"
  else task.(RsyncOptions).(RsyncPath).

(** The flags of [args] built from the options, lines 125-156. *)
Definition optionArgs (task : DataMigrationModel) : list string :=
  let opts := task.(RsyncOptions) in
  let args := [] in
  let args := if opts.(Archive) then append args ["-a"] else args in
  let args := if opts.(Compress) then append args ["-z"] else args in
  let args := if opts.(Verbose) then append args ["-v"] else args in
  let args := if opts.(Delete) then append args ["--delete"] else args in
  let args := if opts.(Progress) then append args ["--progress"] else args in
  let args := if opts.(DryRun) then append args ["-n"] else args in
  let args :=
    fold_left (fun args ex =>
                 if nonBlank ex
                 then append args ["--exclude=" ++ ex]
                 else args)
              opts.(Exclude) args in
  let args :=
    fold_left (fun args inc =>
                 if nonBlank inc
                 then append args ["--include=" ++ inc]
                 else args)
              opts.(Include) args in
  args.

(** [activeRemoteEndpointForRsync] and [operationInvolvesRemoteRsync],
    lines 168-177. *)
Definition activeRemoteEndpointForRsync (task : DataMigrationModel)
  : EndpointDetails * bool :=
  if isRemote task.(Source) then (task.(Source), true)
  else if isRemote task.(Destination) then (task.(Destination), true)
  else (zeroEndpoint, false).

(** [sshOptString], lines 167-194. *)
Definition sshOptString (task : DataMigrationModel) : string :=
  let (active, operationInvolvesRemoteRsync) :=
    activeRemoteEndpointForRsync task in
  if operationInvolvesRemoteRsync && nonEmpty active.(SSHPrivateKeyPath)
  then
    let sshCmdParts := ["ssh"] in
    let sshCmdParts :=
      if nonBlank active.(SSHPrivateKeyPath)
      then append sshCmdParts ["-i"; active.(SSHPrivateKeyPath)]
      else sshCmdParts in
    let sshCmdParts :=
      if negb (active.(SSHPort) =? 0)
      then append sshCmdParts ["-p"; strconv.Itoa active.(SSHPort)]
      else sshCmdParts in
    let sshCmdParts :=
      if task.(RsyncOptions).(InsecureSkipHostKeyVerification)
      then append
             (append sshCmdParts ["-o"; "StrictHostKeyChecking=accept-new"])
             ["-o"; "UserKnownHostsFile=/dev/null"]
      else sshCmdParts in
    strings.Join sshCmdParts " "
  else "".

(** [args] as it stands at line 199, before the two paths are added. *)
Definition rsyncArgs (task : DataMigrationModel) : list string :=
  let args := optionArgs task in
  if nonEmpty (sshOptString task)
  then append args ["-e"; sshOptString task]
  else args.

Definition Transfer (task : DataMigrationModel) : IO (option error) :=
  match Validate task with
  | Some err => ret (Some (Wrapf "rsync task validation failed: " err ""))
  | None =>
    let isRelayMode := IsRelayMode task in
    let rsyncCmdPath := rsyncCmdPath task in
    let args := rsyncArgs task in
    let sourceRsyncPath := getRsyncPath task.(Source) in
    let destinationRsyncPath := getRsyncPath task.(Destination) in
    if isRelayMode then
      '(tempDir, err) <- MkdirTemp "" "transx-relay-*" ;;
      match err with
      | Some err =>
        ret (Some (Wrapf
          "failed to create temporary directory for relay transfer: "
          err ""))
      | None =>
        defer (RemoveAll tempDir)
          (let downloadArgs := append args [sourceRsyncPath; tempDir ++ "/"] in
           Printf ("Relay transfer mode: Downloading from source to local temp dir..." ++ nl) ;;
           '(downloadOutput, err) <- CombinedOutput rsyncCmdPath downloadArgs ;;
           match err with
           | Some err =>
             ret (Some (Wrapf
               ("relay download failed from '" ++ sourceRsyncPath
                ++ "' to temp dir" ++ nl ++ "Command: " ++ rsyncCmdPath
                ++ " " ++ strings.Join downloadArgs " " ++ nl ++ "Error: ")
               err
               (nl ++ "Output:" ++ nl ++ downloadOutput)))
           | None =>
             let uploadArgs :=
               append args [tempDir ++ "/"; destinationRsyncPath] in
             Printf ("Relay transfer mode: Uploading from local temp dir to destination..." ++ nl) ;;
             '(uploadOutput, err) <- CombinedOutput rsyncCmdPath uploadArgs ;;
             match err with
             | Some err =>
               ret (Some (Wrapf
                 ("relay upload failed from temp dir to '"
                  ++ destinationRsyncPath ++ "'" ++ nl ++ "Command: "
                  ++ rsyncCmdPath ++ " " ++ strings.Join uploadArgs " "
                  ++ nl ++ "Error: ")
                 err
                 (nl ++ "Output:" ++ nl ++ uploadOutput)))
             | None =>
               Printf ("Relay transfer completed successfully!" ++ nl) ;;
               ret None
             end
           end)
      end
    else
      let args := append args [sourceRsyncPath; destinationRsyncPath] in
      '(output, err) <- CombinedOutput rsyncCmdPath args ;;
      match err with
      | Some err =>
        ret (Some (Wrapf
          ("rsync execution failed for task from '" ++ sourceRsyncPath
           ++ "' to '" ++ destinationRsyncPath ++ "'" ++ nl ++ "Command: "
           ++ rsyncCmdPath ++ " " ++ strings.Join args " " ++ nl
           ++ "Error: ")
          err
          (nl ++ "Output:" ++ nl ++ output)))
      | None => ret None
      end
  end.

(** *** [executeCommand] *)

Definition executeCommand (commandToExecute : string)
  (endpoint : EndpointDetails) (sshConfig : RsyncOption)
  : IO (string * option error) :=
  if isEmpty (strings.TrimSpace commandToExecute) then
    ret ("", Some (Errorf "command to execute cannot be empty"))
  else if isRemote endpoint then
    if isEmpty (strings.TrimSpace endpoint.(HostIP)) then
      ret ("", Some (Errorf
        "HostIP must be provided for remote command execution on endpoint"))
    else
      let userHost := endpoint.(HostIP) in
      let userHost :=
        if nonBlank endpoint.(Username)
        then endpoint.(Username) ++ "@" ++ endpoint.(HostIP)
        else userHost in
      let sshCmdParts := ["ssh"] in
      let sshCmdParts :=
        if nonBlank endpoint.(SSHPrivateKeyPath)
        then append sshCmdParts ["-i"; endpoint.(SSHPrivateKeyPath)]
        else sshCmdParts in
      let sshCmdParts :=
        if negb (endpoint.(SSHPort) =? 0)
        then append sshCmdParts ["-p"; strconv.Itoa endpoint.(SSHPort)]
        else sshCmdParts in
      let sshCmdParts :=
        if sshConfig.(InsecureSkipHostKeyVerification)
        then append
             (append sshCmdParts ["-o"; "StrictHostKeyChecking=accept-new"])
             ["-o"; "UserKnownHostsFile=/dev/null"]
        else sshCmdParts in
      let sshCmdParts := append sshCmdParts ["-o"; "ConnectTimeout=30"] in
      let sshCmdParts :=
        if strings.Contains commandToExecute "sudo"
        then append sshCmdParts ["-t"]
        else sshCmdParts in
      let sshCmdParts := append sshCmdParts [userHost; commandToExecute] in
      Printf ("Executing remote command on " ++ userHost ++ "..." ++ nl) ;;
      CombinedOutput (hd "" sshCmdParts) (tl sshCmdParts)
  else
    Printf ("Executing local command..." ++ nl) ;;
    CombinedOutput "sh" ["-c"; commandToExecute].

(** *** The phases *)

(** The summary of a command's output that [Backup] and [Restore]
    print: the first 200 bytes when it is longer than that, nothing when
    it is empty. *)
Definition showOutput (what : string) (outputStr : string) : IO unit :=
  if (200 <? String.length outputStr)%nat then
    Printf (what ++ " command output (truncated): "
            ++ substring 0 200 outputStr ++ "..." ++ nl)
  else if (0 <? String.length outputStr)%nat then
    Printf (what ++ " command output: " ++ outputStr ++ nl)
  else ret tt.

Definition Backup (dmm : DataMigrationModel) : IO (option error) :=
  let source := dmm.(Source) in
  if isEmpty (strings.TrimSpace source.(BackupCmd)) then
    ret (Some (Errorf "backup command is not defined for source"))
  else
    let sourcePath :=
      if isRemote source
      then source.(Username) ++ "@" ++ source.(HostIP) ++ ":"
           ++ source.(DataPath)
      else source.(DataPath) in
    (if isRemote source
     then Printf ("Executing backup command on remote server "
                  ++ source.(HostIP) ++ "..." ++ nl)
     else Printf ("Executing backup command locally..." ++ nl)) ;;
    Printf ("Backup command: " ++ source.(BackupCmd) ++ nl) ;;
    '(output, err) <-
      executeCommand source.(BackupCmd) source dmm.(RsyncOptions) ;;
    match err with
    | Some err =>
      ret (Some (Wrapf
        ("backup command execution failed for source '" ++ sourcePath
         ++ "': ")
        err
        (nl ++ "Output:" ++ nl ++ output)))
    | None =>
      showOutput "Backup" output ;;
      ret None
    end.

Definition Restore (dmm : DataMigrationModel) : IO (option error) :=
  let destination := dmm.(Destination) in
  if isEmpty (strings.TrimSpace destination.(RestoreCmd)) then
    ret (Some (Errorf "restore command is not defined for destination"))
  else
    let destinationDataPath :=
      if isRemote destination
      then destination.(Username) ++ "@" ++ destination.(HostIP) ++ ":"
           ++ destination.(DataPath)
      else destination.(DataPath) in
    (if isRemote destination
     then Printf ("Executing restore command on remote server "
                  ++ destination.(HostIP) ++ "..." ++ nl)
     else Printf ("Executing restore command locally..." ++ nl)) ;;
    Printf ("Restore command: " ++ destination.(RestoreCmd) ++ nl) ;;
    '(output, err) <-
      executeCommand destination.(RestoreCmd) destination
                     dmm.(RsyncOptions) ;;
    match err with
    | Some err =>
      ret (Some (Wrapf
        ("restore command execution failed for destination '"
         ++ destinationDataPath ++ "': ")
        err
        (nl ++ "Output:" ++ nl ++ output)))
    | None =>
      showOutput "Restore" output ;;
      ret None
    end.

(** In [MigrateData] the first [if] block may return from the function:
    its value here is that return value, [None] when control falls
    through to step 2. *)
Definition MigrateData (dmm : DataMigrationModel) : IO (option error) :=
  returned <-
    (if nonEmpty (strings.TrimSpace dmm.(Source).(BackupCmd)) then
       Printf ("Step 1: Backing up data..." ++ nl) ;;
       err <- Backup dmm ;;
       match err with
       | Some err => ret (Some (Wrapf "backup operation failed: " err ""))
       | None =>
         Printf ("Backup completed successfully!" ++ nl) ;;
         ret None
       end
     else ret None) ;;
  match returned with
  | Some err => ret (Some err)
  | None =>
    Printf ("Step 2: Transferring data to destination..." ++ nl) ;;
    err <- Transfer dmm ;;
    match err with
    | Some err => ret (Some (Wrapf "data transfer failed: " err ""))
    | None =>
      Printf ("Data transfer completed successfully!" ++ nl) ;;
      if nonEmpty (strings.TrimSpace dmm.(Destination).(RestoreCmd)) then
        Printf ("Step 3: Restoring data..." ++ nl) ;;
        err <- Restore dmm ;;
        match err with
        | Some err =>
          ret (Some (Wrapf "restore operation failed: " err ""))
        | None =>
          Printf ("Restore completed successfully!" ++ nl) ;;
          ret None
        end
      else ret None
    end
  end.

End Effects.

(** The commands a run of events invoked, in order: program and
    arguments of each [CombinedOutput] call. *)
Definition invoked (evs : list Event) : list (string * list string) :=
  flat_map (fun ev =>
              match ev with
              | EvExec name args => [(name, args)]
              | _ => []
              end) evs.

(** ** The workflow as the specification words it

    "Full-workflow order is strictly Backup, Transfer, Restore", a phase
    whose command is blank is skipped, Transfer is always attempted, and
    "every failure aborts the remaining phases".  [MigrateData] is compared
    with this below. *)
Inductive Phase := BackupPhase | TransferPhase | RestorePhase.

Definition plannedPhases (dmm : DataMigrationModel) : list Phase :=
  ((if nonBlank dmm.(Source).(BackupCmd) then [BackupPhase] else [])
   ++ [TransferPhase]
   ++ (if nonBlank dmm.(Destination).(RestoreCmd) then [RestorePhase]
       else []))%list.

(** One phase between its two progress lines; its error, if any, is
    wrapped with the name of the phase. *)
Definition runPhase (os : OS) (dmm : DataMigrationModel) (p : Phase)
  : IO (option error) :=
  let '(before, phase, failed, after) :=
    match p with
    | BackupPhase =>
      ("Step 1: Backing up data...", Backup os dmm,
       "backup operation failed: ", "Backup completed successfully!")
    | TransferPhase =>
      ("Step 2: Transferring data to destination...", Transfer os dmm,
       "data transfer failed: ", "Data transfer completed successfully!")
    | RestorePhase =>
      ("Step 3: Restoring data...", Restore os dmm,
       "restore operation failed: ", "Restore completed successfully!")
    end in
  Printf (before ++ nl) ;;
  err <- phase ;;
  match err with
  | Some err => ret (Some (Wrapf failed err ""))
  | None => Printf (after ++ nl) ;; ret None
  end.

(** The phases in the order given, stopping at the first failure. *)
Fixpoint runPhases (os : OS) (dmm : DataMigrationModel) (ps : list Phase)
  : IO (option error) :=
  match ps with
  | [] => ret None
  | p :: rest =>
    err <- runPhase os dmm p ;;
    match err with
    | Some err => ret (Some err)
    | None => runPhases os dmm rest
    end
  end.

(** ** Concrete endpoints, tasks and environments

    Used below to run the definitions on actual inputs. *)

Definition emptyWorld : World := {| events := []; tempDirs := [] |}.

(** Every command succeeds and prints nothing; the relay directory is
    [/tmp/transx-relay-1]. *)
Definition quietOS : OS :=
  {| runCommand := fun _ _ _ => ("", None);
     makeTempDir := fun _ _ _ => inl "/tmp/transx-relay-1";
     removeTree := fun _ _ => None |}.

(** Every command fails with exit status 1. *)
Definition failingOS : OS :=
  {| runCommand := fun _ _ _ => ("", Some "exit status 1");
     makeTempDir := fun _ _ _ => inl "/tmp/transx-relay-1";
     removeTree := fun _ _ => None |}.

Definition isExec (ev : Event) : bool :=
  match ev with
  | EvExec _ _ => true
  | _ => false
  end.

(** The first command succeeds, every later one fails. *)
Definition secondFailsOS : OS :=
  {| runCommand := fun w _ _ =>
       if existsb isExec w.(events)
       then ("", Some "exit status 23")
       else ("", None);
     makeTempDir := fun _ _ _ => inl "/tmp/transx-relay-1";
     removeTree := fun _ _ => None |}.

Definition localEndpoint (path : string) : EndpointDetails :=
  {| Username := ""; HostIP := ""; SSHPort := 0; DataPath := path;
     SSHPrivateKeyPath := ""; BackupCmd := ""; RestoreCmd := "" |}.

Definition remoteEndpoint (user host : string) (port : Z)
  (path key : string) : EndpointDetails :=
  {| Username := user; HostIP := host; SSHPort := port; DataPath := path;
     SSHPrivateKeyPath := key; BackupCmd := ""; RestoreCmd := "" |}.

Definition plainOptions : RsyncOption :=
  {| Compress := false; Archive := true; Verbose := false; Delete := false;
     Progress := false; DryRun := false; RsyncPath := ""; Exclude := [];
     Include := []; InsecureSkipHostKeyVerification := false |}.

Definition relaxedOptions : RsyncOption :=
  {| Compress := true; Archive := true; Verbose := false; Delete := false;
     Progress := false; DryRun := false; RsyncPath := "";
     Exclude := ["*.tmp"]; Include := [];
     InsecureSkipHostKeyVerification := true |}.

(** [u1@h1:/src] to [u2@h2:/dst], both remote. *)
Definition relayTask : DataMigrationModel :=
  {| Source := remoteEndpoint "u1" "h1" 2222 "/src" "/keys/k1";
     Destination := remoteEndpoint "u2" "h2" 0 "/dst" "/keys/k2";
     RsyncOptions := plainOptions |}.

(** A local directory to [u2@h2:/dst]; the (local) source carries a key
    and a port all the same. *)
Definition uploadTask : DataMigrationModel :=
  {| Source :=
       {| Username := ""; HostIP := ""; SSHPort := 2201; DataPath := "/src";
          SSHPrivateKeyPath := "/keys/k1"; BackupCmd := "";
          RestoreCmd := "" |};
     Destination := remoteEndpoint "u2" "h2" 2222 "/dst" "/keys/k2";
     RsyncOptions := relaxedOptions |}.

(** A local directory to [h2:/dst] on port 2222, no key given. *)
Definition keylessUploadTask : DataMigrationModel :=
  {| Source := localEndpoint "/src";
     Destination := remoteEndpoint "" "h2" 2222 "/dst" "";
     RsyncOptions := plainOptions |}.

(** Local to local. *)
Definition localTask : DataMigrationModel :=
  {| Source := localEndpoint "/src";
     Destination := localEndpoint "/dst";
     RsyncOptions := plainOptions |}.

(** Local to local, the source's port set to 70000. *)
Definition localPort70000Task : DataMigrationModel :=
  {| Source :=
       {| Username := ""; HostIP := ""; SSHPort := 70000;
          DataPath := "/src"; SSHPrivateKeyPath := ""; BackupCmd := "";
          RestoreCmd := "" |};
     Destination := localEndpoint "/dst";
     RsyncOptions := plainOptions |}.

(** [u1@h1:/src] with port [port] to a local directory. *)
Definition downloadTask (port : Z) : DataMigrationModel :=
  {| Source := remoteEndpoint "u1" "h1" port "/src" "/keys/k1";
     Destination := localEndpoint "/dst";
     RsyncOptions := plainOptions |}.

(** No backup command, a restore command on the remote destination. *)
Definition restoreOnlyTask : DataMigrationModel :=
  {| Source := localEndpoint "/src";
     Destination :=
       {| Username := "u2"; HostIP := "h2"; SSHPort := 0; DataPath := "/dst";
          SSHPrivateKeyPath := "/keys/k2"; BackupCmd := "";
          RestoreCmd := "sudo tar -xf /dst/dump.tar" |};
     RsyncOptions := plainOptions |}.

(** No temporary directory can be made. *)
Definition noTempDirOS : OS :=
  {| runCommand := fun _ _ _ => ("", None);
     makeTempDir := fun _ _ _ => inr "no space left on device";
     removeTree := fun _ _ => None |}.

(** Every command succeeds, but the relay directory cannot be removed. *)
Definition stuckDirOS : OS :=
  {| runCommand := fun _ _ _ => ("", None);
     makeTempDir := fun _ _ _ => inl "/tmp/transx-relay-1";
     removeTree := fun _ _ => Some "device or resource busy" |}.

(** Both remote, the source's port out of range. *)
Definition badPortRelayTask : DataMigrationModel :=
  {| Source := remoteEndpoint "u1" "h1" 70000 "/src" "/keys/k1";
     Destination := remoteEndpoint "u2" "h2" 0 "/dst" "/keys/k2";
     RsyncOptions := plainOptions |}.

(** ** Further definitions used by the statements below *)

(** An ASCII byte that is not white space. *)
Definition plainASCII (c : ascii) : bool :=
  (utf8.byte c <? utf8.RuneSelf) && negb (unicode.IsSpace (utf8.byte c)).



(** A local source with a backup command, to a local directory. *)
Definition backupTask : DataMigrationModel :=
  {| Source :=
       {| Username := ""; HostIP := ""; SSHPort := 0; DataPath := "/src";
          SSHPrivateKeyPath := "";
          BackupCmd := "tar -cf /src/dump.tar /var/lib/data";
          RestoreCmd := "" |};
     Destination := localEndpoint "/dst";
     RsyncOptions := plainOptions |}.

(** The same, the destination's data path left out. *)
Definition backupNoDestinationTask : DataMigrationModel :=
  {| Source := backupTask.(Source);
     Destination := localEndpoint "";
     RsyncOptions := plainOptions |}.

(** A remote source whose data path is only spaces. *)
Definition remoteNoPathTask : DataMigrationModel :=
  {| Source := remoteEndpoint "u1" "h1" 0 "  " "/keys/k1";
     Destination := localEndpoint "/dst";
     RsyncOptions := plainOptions |}.

(** [relayTask] with other user names, keys and options; hosts, paths and
    ports are the same. *)
Definition relayTaskOtherKeys : DataMigrationModel :=
  {| Source := remoteEndpoint "admin" "h1" 2222 "/src" "";
     Destination := remoteEndpoint "" "h2" 0 "/dst" "/keys/other";
     RsyncOptions := relaxedOptions |}.

(** * Properties *)

(** ** Strings *)

Lemma isEmpty_true s : isEmpty s = true <-> s = "".
Proof. unfold isEmpty. apply String.eqb_eq. Qed.

Lemma isEmpty_false s : isEmpty s = false <-> s <> "".
Proof. unfold isEmpty. apply String.eqb_neq. Qed.

Lemma nonEmpty_true s : nonEmpty s = true <-> s <> "".
Proof.
  unfold nonEmpty. rewrite negb_true_iff. apply isEmpty_false.
Qed.

Lemma nonEmpty_false s : nonEmpty s = false <-> s = "".
Proof.
  unfold nonEmpty. rewrite negb_false_iff. apply isEmpty_true.
Qed.

Lemma TrimSpace_empty : strings.TrimSpace "" = "".
Proof. reflexivity. Qed.

Lemma nonBlank_isEmpty s :
  nonBlank s = negb (isEmpty (strings.TrimSpace s)).
Proof. reflexivity. Qed.

(** ** Endpoint model *)

(** C3.  Whatever the user name, port, data path, key path and commands
    are, an endpoint is remote exactly when its host address is not empty
    after trimming; with the empty host address it is local. *)
Theorem isRemote_iff_host_not_blank :
  forall (u h : string) (p : Z) (d k b r : string),
    (isRemote {| Username := u; HostIP := h; SSHPort := p; DataPath := d;
                 SSHPrivateKeyPath := k; BackupCmd := b; RestoreCmd := r |}
       = true
     <-> strings.TrimSpace h <> "")
    /\ isRemote {| Username := u; HostIP := ""; SSHPort := p; DataPath := d;
                   SSHPrivateKeyPath := k; BackupCmd := b; RestoreCmd := r |}
       = false.
Proof.
  intros u h p d k b r. split.
  - unfold isRemote, nonBlank. cbn [HostIP]. apply nonEmpty_true.
  - reflexivity.
Qed.

(** C4.  The address handed to rsync: the data path itself for a local
    endpoint; [user@host:path] for a remote endpoint whose user name is
    set (not empty after trimming); [host:path] for a remote endpoint
    whose user name is not set, the empty user name included. *)
Theorem getRsyncPath_cases (e : EndpointDetails) :
  (isRemote e = false -> getRsyncPath e = e.(DataPath))
  /\ (isRemote e = true -> strings.TrimSpace e.(Username) <> "" ->
      getRsyncPath e
      = e.(Username) ++ "@" ++ e.(HostIP) ++ ":" ++ e.(DataPath))
  /\ (isRemote e = true -> strings.TrimSpace e.(Username) = "" ->
      getRsyncPath e = e.(HostIP) ++ ":" ++ e.(DataPath))
  /\ (isRemote e = true -> e.(Username) = "" ->
      getRsyncPath e = e.(HostIP) ++ ":" ++ e.(DataPath)).
Proof.
  unfold getRsyncPath. repeat split; intros Hr.
  - now rewrite Hr.
  - intros Hu. apply nonEmpty_true in Hu. unfold nonBlank. now rewrite Hr, Hu.
  - intros Hu. apply nonEmpty_false in Hu. unfold nonBlank. now rewrite Hr, Hu.
  - intros Hu. rewrite Hr, Hu. reflexivity.
Qed.

Lemma getRsyncPath_cases_witness :
  getRsyncPath (localEndpoint "/a/b") = "/a/b"
  /\ getRsyncPath (remoteEndpoint "u" "h" 0 "/d" "") = "u@h:/d"
  /\ getRsyncPath (remoteEndpoint "" "h" 0 "/d" "") = "h:/d".
Proof.
  split; [| split].
  - apply (proj1 (getRsyncPath_cases (localEndpoint "/a/b"))).
    reflexivity.
  - apply (proj1 (proj2 (getRsyncPath_cases
                           (remoteEndpoint "u" "h" 0 "/d" "")))).
    + reflexivity.
    + vm_compute. discriminate.
  - apply (proj2 (proj2 (proj2 (getRsyncPath_cases
                                  (remoteEndpoint "" "h" 0 "/d" ""))))).
    + reflexivity.
    + reflexivity.
Defined.

Lemma isRemote_iff_host_not_blank_witness :
  isRemote (remoteEndpoint "" " h " 0 "" "") = true
  /\ isRemote (remoteEndpoint "u" "  " 22 "/d" "/k") = false.
Proof.
  split.
  - apply (proj1 (isRemote_iff_host_not_blank "" " h " 0 "" "" "" "")).
    vm_compute. discriminate.
  - destruct (isRemote (remoteEndpoint "u" "  " 22 "/d" "/k")) eqn:E;
      [| reflexivity].
    apply (proj1 (isRemote_iff_host_not_blank "u" "  " 22 "/d" "/k" "" ""))
      in E.
    exfalso. apply E. reflexivity.
Defined.

(** ** Validation *)

(** A port is accepted when it is 0 (use the default) or within 1-65535. *)
Lemma portOutOfRange_false p :
  portOutOfRange p = false <-> p = 0 \/ 1 <= p <= 65535.
Proof. unfold portOutOfRange. lia. Qed.

Lemma portOutOfRange_true p :
  portOutOfRange p = true <-> p <> 0 /\ (p < 1 \/ 65535 < p).
Proof. unfold portOutOfRange. lia. Qed.

(** Inside [if e.isRemote()] the host address is not blank. *)
Lemma isRemote_host_not_empty e :
  isRemote e = true -> isEmpty (strings.TrimSpace e.(HostIP)) = false.
Proof.
  unfold isRemote, nonBlank, nonEmpty. now rewrite negb_true_iff.
Qed.

(** [Validate] once both path checks have passed. *)
Lemma Validate_paths_present task :
  strings.TrimSpace (getRsyncPath task.(Source)) <> "" ->
  strings.TrimSpace task.(Source).(DataPath) <> "" ->
  strings.TrimSpace (getRsyncPath task.(Destination)) <> "" ->
  strings.TrimSpace task.(Destination).(DataPath) <> "" ->
  Validate task =
    (if isRemote task.(Source) && portOutOfRange task.(Source).(SSHPort)
     then Some (Errorf ("source SSH port "
                        ++ strconv.Itoa task.(Source).(SSHPort)
                        ++ " is out of valid range (1-65535)"))
     else if isRemote task.(Destination)
             && portOutOfRange task.(Destination).(SSHPort)
     then Some (Errorf ("destination SSH port "
                        ++ strconv.Itoa task.(Destination).(SSHPort)
                        ++ " is out of valid range (1-65535)"))
     else None).
Proof.
  intros H1 H2 H3 H4. apply isEmpty_false in H1, H2, H3, H4.
  unfold Validate. rewrite H1, H2, H3, H4. cbn [orb failIf andThen].
  destruct (isRemote (Source task)) eqn:Rs;
    destruct (isRemote (Destination task)) eqn:Rd;
    try rewrite (isRemote_host_not_empty _ Rs);
    try rewrite (isRemote_host_not_empty _ Rd);
    cbn [andb failIf andThen];
    destruct (portOutOfRange (SSHPort (Source task)));
    destruct (portOutOfRange (SSHPort (Destination task)));
    reflexivity.
Qed.

(** C8, as the code has it.  With both paths present: [Validate] passes
    exactly when every remote endpoint's port is 0 or within 1-65535, so
    port 0 is accepted and the port of a local endpoint is not looked at;
    a remote source whose port is set and out of range is rejected with
    the source's port error; a remote destination whose port is set and
    out of range is rejected with the destination's port error once the
    source has passed. *)
Theorem Validate_port_range task :
  strings.TrimSpace (getRsyncPath task.(Source)) <> "" ->
  strings.TrimSpace task.(Source).(DataPath) <> "" ->
  strings.TrimSpace (getRsyncPath task.(Destination)) <> "" ->
  strings.TrimSpace task.(Destination).(DataPath) <> "" ->
  let accepted (e : EndpointDetails) :=
    isRemote e = true -> e.(SSHPort) = 0 \/ 1 <= e.(SSHPort) <= 65535 in
  let rejected (e : EndpointDetails) :=
    isRemote e = true /\ e.(SSHPort) <> 0
    /\ (e.(SSHPort) < 1 \/ 65535 < e.(SSHPort)) in
  (Validate task = None
   <-> accepted task.(Source) /\ accepted task.(Destination))
  /\ (rejected task.(Source) ->
      Validate task
      = Some (Errorf ("source SSH port "
                      ++ strconv.Itoa task.(Source).(SSHPort)
                      ++ " is out of valid range (1-65535)")))
  /\ (accepted task.(Source) -> rejected task.(Destination) ->
      Validate task
      = Some (Errorf ("destination SSH port "
                      ++ strconv.Itoa task.(Destination).(SSHPort)
                      ++ " is out of valid range (1-65535)"))).
Proof.
  intros H1 H2 H3 H4 accepted rejected.
  rewrite (Validate_paths_present task H1 H2 H3 H4).
  subst accepted rejected. cbv beta.
  destruct (isRemote (Source task)) eqn:Rs;
    destruct (isRemote (Destination task)) eqn:Rd;
    destruct (portOutOfRange (SSHPort (Source task))) eqn:Ps;
    destruct (portOutOfRange (SSHPort (Destination task))) eqn:Pd;
    cbn [andb];
    try apply portOutOfRange_true in Ps;
    try apply portOutOfRange_false in Ps;
    try apply portOutOfRange_true in Pd;
    try apply portOutOfRange_false in Pd;
    (split; [split |]);
    try (split; intros);
    try reflexivity; try discriminate; try tauto;
    try (intuition (try discriminate; try lia)).
Qed.

Lemma Validate_port_range_witness :
  Validate (downloadTask 70000)
  = Some (Errorf "source SSH port 70000 is out of valid range (1-65535)")
  /\ Validate (downloadTask 0) = None.
Proof.
  split.
  - apply (Validate_port_range (downloadTask 70000));
      try (vm_compute; discriminate).
    split; [reflexivity |].
    split; [vm_compute; discriminate | right; reflexivity].
  - apply (Validate_port_range (downloadTask 0));
      try (vm_compute; discriminate).
    split; intros R.
    + left. reflexivity.
    + vm_compute in R. discriminate R.
Defined.

(** C8, as stated, fails: a local source with port 70000 is accepted. *)
Lemma Validate_local_port_70000_accepted :
  localPort70000Task.(Source).(SSHPort) = 70000
  /\ Validate localPort70000Task = None.
Proof. split; reflexivity. Qed.

(** C10.  The two host re-checks of [Validate] and the one of
    [executeCommand] never fire: no task makes [Validate] return either
    "HostIP must be provided" error, and no call of [executeCommand], on a
    remote endpoint or any other, returns its own. *)
Theorem MissingHost_unreachable :
  (forall task,
      Validate task
      <> Some (Errorf "source HostIP must be provided for remote rsync task")
      /\ Validate task
         <> Some (Errorf
                    "destination HostIP must be provided for remote rsync task"))
  /\ (forall os commandToExecute endpoint sshConfig w,
         snd (fst (executeCommand os commandToExecute endpoint sshConfig w))
         <> Some (Errorf
              "HostIP must be provided for remote command execution on endpoint")).
Proof.
  split.
  - intros task. unfold Validate.
    destruct (isRemote (Source task)) eqn:Rs;
      destruct (isRemote (Destination task)) eqn:Rd;
      try rewrite (isRemote_host_not_empty _ Rs);
      try rewrite (isRemote_host_not_empty _ Rd);
      unfold failIf, andThen;
      repeat match goal with
             | |- context [if ?c then _ else _] => destruct c
             end;
      split; cbn [String.append]; discriminate.
  - intros os commandToExecute endpoint sshConfig w. unfold executeCommand.
    destruct (isEmpty (strings.TrimSpace commandToExecute)); [discriminate |].
    destruct (isRemote endpoint) eqn:R.
    + rewrite (isRemote_host_not_empty _ R).
      unfold bind, Printf, CombinedOutput.
      destruct (runCommand os _ _ _) as [output [msg |]]; discriminate.
    + unfold bind, Printf, CombinedOutput.
      destruct (runCommand os _ _ _) as [output [msg |]]; discriminate.
Qed.

(** ** The command executor *)

(** C7.  A command that is empty after trimming is refused with the
    "command to execute cannot be empty" error, for every endpoint and
    every option value, and the world is left as it was: nothing is
    spawned, printed or created. *)
Theorem executeCommand_blank os commandToExecute endpoint sshConfig w :
  strings.TrimSpace commandToExecute = "" ->
  executeCommand os commandToExecute endpoint sshConfig w
  = (("", Some (Errorf "command to execute cannot be empty")), w).
Proof.
  intros H. unfold executeCommand. apply isEmpty_true in H. now rewrite H.
Qed.

Lemma executeCommand_blank_witness :
  executeCommand failingOS "   " (remoteEndpoint "u" "h" 22 "/d" "/k")
                 relaxedOptions emptyWorld
  = (("", Some (Errorf "command to execute cannot be empty")), emptyWorld).
Proof.
  apply (executeCommand_blank failingOS "   "
           (remoteEndpoint "u" "h" 22 "/d" "/k") relaxedOptions emptyWorld).
  reflexivity.
Defined.

(** C6.  For a command that is not blank and a remote endpoint,
    [executeCommand] announces the call and runs [ssh] with, in this order:
    [-i key] exactly when the key path is set, [-p port] exactly when the
    port is not 0, the two host-key options exactly when
    [InsecureSkipHostKeyVerification] is set, [-o ConnectTimeout=30]
    always, [-t] exactly when the command contains "sudo", then
    [user@host] (the host alone when the user name is blank), then the
    command as one argument; what the process returns is what
    [executeCommand] returns. *)
Theorem executeCommand_remote_ssh os commandToExecute endpoint sshConfig w :
  strings.TrimSpace commandToExecute <> "" ->
  isRemote endpoint = true ->
  let userHost :=
    if nonBlank endpoint.(Username)
    then endpoint.(Username) ++ "@" ++ endpoint.(HostIP)
    else endpoint.(HostIP) in
  executeCommand os commandToExecute endpoint sshConfig w
  = CombinedOutput os "ssh"
      ((if nonBlank endpoint.(SSHPrivateKeyPath)
        then ["-i"; endpoint.(SSHPrivateKeyPath)] else [])
       ++ (if endpoint.(SSHPort) =? 0
           then [] else ["-p"; strconv.Itoa endpoint.(SSHPort)])
       ++ (if sshConfig.(InsecureSkipHostKeyVerification)
           then ["-o"; "StrictHostKeyChecking=accept-new";
                 "-o"; "UserKnownHostsFile=/dev/null"]
           else [])
       ++ ["-o"; "ConnectTimeout=30"]
       ++ (if strings.Contains commandToExecute "sudo" then ["-t"] else [])
       ++ [userHost; commandToExecute])%list
      (log (EvStdout ("Executing remote command on " ++ userHost ++ "..."
                      ++ nl)) w).
Proof.
  intros Hc Hr userHost. subst userHost.
  apply isEmpty_false in Hc.
  unfold executeCommand.
  rewrite Hc, Hr, (isRemote_host_not_empty _ Hr).
  unfold bind, Printf.
  destruct (nonBlank (Username endpoint));
    destruct (nonBlank (SSHPrivateKeyPath endpoint));
    destruct (SSHPort endpoint =? 0);
    destruct (InsecureSkipHostKeyVerification sshConfig);
    destruct (strings.Contains commandToExecute "sudo");
    reflexivity.
Qed.

Lemma executeCommand_remote_ssh_witness :
  executeCommand quietOS "sudo tar -xf /dst/dump.tar"
                 (remoteEndpoint "u2" "h2" 2222 "/dst" "/keys/k2")
                 relaxedOptions emptyWorld
  = (("", None),
     {| events :=
          [EvStdout ("Executing remote command on u2@h2..." ++ nl);
           EvExec "ssh"
             ["-i"; "/keys/k2"; "-p"; "2222";
              "-o"; "StrictHostKeyChecking=accept-new";
              "-o"; "UserKnownHostsFile=/dev/null";
              "-o"; "ConnectTimeout=30"; "-t"; "u2@h2";
              "sudo tar -xf /dst/dump.tar"]];
        tempDirs := [] |}).
Proof.
  rewrite (executeCommand_remote_ssh quietOS "sudo tar -xf /dst/dump.tar"
             (remoteEndpoint "u2" "h2" 2222 "/dst" "/keys/k2")
             relaxedOptions emptyWorld).
  - reflexivity.
  - vm_compute. discriminate.
  - reflexivity.
Defined.

(** ** The phases *)

(** C9, as the code has it.  Called on its own with a blank backup
    command, [Backup] spawns nothing and leaves the world as it was, but
    it returns the error "backup command is not defined for source";
    likewise [Restore] with a blank restore command returns "restore
    command is not defined for destination". *)
Theorem Backup_Restore_blank_command os dmm w :
  (strings.TrimSpace dmm.(Source).(BackupCmd) = "" ->
   Backup os dmm w
   = (Some (Errorf "backup command is not defined for source"), w))
  /\ (strings.TrimSpace dmm.(Destination).(RestoreCmd) = "" ->
      Restore os dmm w
      = (Some (Errorf "restore command is not defined for destination"), w)).
Proof.
  split; intros H; apply isEmpty_true in H.
  - unfold Backup. now rewrite H.
  - unfold Restore. now rewrite H.
Qed.

Lemma Backup_Restore_blank_command_witness :
  Backup quietOS localTask emptyWorld
  = (Some (Errorf "backup command is not defined for source"), emptyWorld)
  /\ Restore quietOS localTask emptyWorld
     = (Some (Errorf "restore command is not defined for destination"),
        emptyWorld).
Proof.
  split.
  - apply (proj1 (Backup_Restore_blank_command quietOS localTask emptyWorld)).
    reflexivity.
  - apply (proj2 (Backup_Restore_blank_command quietOS localTask emptyWorld)).
    reflexivity.
Defined.

(** C9, as stated, fails: with a blank backup command [Backup] does not
    return success, and neither does [Restore] with a blank restore
    command. *)
Lemma Backup_Restore_blank_not_success :
  strings.TrimSpace localTask.(Source).(BackupCmd) = ""
  /\ fst (Backup quietOS localTask emptyWorld) <> None
  /\ strings.TrimSpace localTask.(Destination).(RestoreCmd) = ""
  /\ fst (Restore quietOS localTask emptyWorld) <> None.
Proof. repeat split; vm_compute; discriminate. Qed.

(** A failed phase ends the run: the phases after it are not started. *)
Lemma runPhases_abort os dmm p rest w err w' :
  runPhase os dmm p w = (Some err, w') ->
  runPhases os dmm (p :: rest) w = (Some err, w').
Proof. intros H. cbn [runPhases]. unfold bind. now rewrite H. Qed.

Lemma runPhases_continue os dmm p rest w w' :
  runPhase os dmm p w = (None, w') ->
  runPhases os dmm (p :: rest) w = runPhases os dmm rest w'.
Proof. intros H. cbn [runPhases]. unfold bind. now rewrite H. Qed.

(** [MigrateData] runs the planned phases, in order, up to the first
    failure. *)
Lemma MigrateData_runs_planned_phases os dmm w :
  MigrateData os dmm w = runPhases os dmm (plannedPhases dmm) w.
Proof.
  unfold MigrateData, plannedPhases, nonBlank.
  destruct (nonEmpty (strings.TrimSpace (BackupCmd (Source dmm))));
    destruct (nonEmpty (strings.TrimSpace (RestoreCmd (Destination dmm))));
    cbn [List.app runPhases runPhase]; unfold bind, ret, Printf;
    try destruct (Backup os dmm _) as [[e1 |] w1];
    try reflexivity;
    destruct (Transfer os dmm _) as [[e2 |] w2];
    try reflexivity;
    destruct (Restore os dmm _) as [[e3 |] w3];
    reflexivity.
Qed.

(** C2.  For every task, [MigrateData] runs the planned phases (Backup
    when its command is set, Transfer, Restore when its command is set) in
    that order and stops at the first failure.  When the backup command is
    blank, the plan starts with the transfer, and the first thing done is
    the transfer, right after the "Step 2" line: nothing is run or printed
    for a backup.  If the transfer fails, that (wrapped) error is returned
    and nothing else runs; if it succeeds and the restore command is set,
    [Restore] runs next and decides the result; if it succeeds and the
    restore command is blank, the run is over and successful. *)
Theorem MigrateData_blank_backup os dmm w :
  MigrateData os dmm w = runPhases os dmm (plannedPhases dmm) w
  /\ (strings.TrimSpace dmm.(Source).(BackupCmd) = "" ->
      let w1 :=
        log (EvStdout ("Step 2: Transferring data to destination..." ++ nl))
            w in
      let transferred (w2 : World) :=
        log (EvStdout ("Data transfer completed successfully!" ++ nl)) w2 in
      hd_error (plannedPhases dmm) = Some TransferPhase
      /\ (forall err w2,
             Transfer os dmm w1 = (Some err, w2) ->
             MigrateData os dmm w
             = (Some (Wrapf "data transfer failed: " err ""), w2))
      /\ (forall w2,
             Transfer os dmm w1 = (None, w2) ->
             strings.TrimSpace dmm.(Destination).(RestoreCmd) <> "" ->
             MigrateData os dmm w
             = (let (err, w3) :=
                  Restore os dmm
                    (log (EvStdout ("Step 3: Restoring data..." ++ nl))
                         (transferred w2)) in
                match err with
                | Some err =>
                  (Some (Wrapf "restore operation failed: " err ""), w3)
                | None =>
                  (None,
                   log (EvStdout ("Restore completed successfully!" ++ nl))
                       w3)
                end))
      /\ (forall w2,
             Transfer os dmm w1 = (None, w2) ->
             strings.TrimSpace dmm.(Destination).(RestoreCmd) = "" ->
             MigrateData os dmm w = (None, transferred w2))).
Proof.
  split; [apply MigrateData_runs_planned_phases |].
  intros Hb w1 transferred. subst w1 transferred.
  apply nonEmpty_false in Hb.
  split; [unfold plannedPhases, nonBlank; now rewrite Hb |].
  unfold MigrateData. rewrite Hb. unfold bind, ret, Printf.
  repeat split.
  - intros err w2 Ht. now rewrite Ht.
  - intros w2 Ht Hr. apply nonEmpty_true in Hr. rewrite Ht, Hr.
    destruct (Restore os dmm _) as [[e3 |] w3]; reflexivity.
  - intros w2 Ht Hr. apply nonEmpty_false in Hr. now rewrite Ht, Hr.
Qed.

Lemma MigrateData_blank_backup_witness :
  MigrateData quietOS restoreOnlyTask emptyWorld
  = (None,
     {| events :=
          [EvStdout ("Step 2: Transferring data to destination..." ++ nl);
           EvExec "rsync" ["-a"; "-e"; "ssh -i /keys/k2"; "/src";
                           "u2@h2:/dst"];
           EvStdout ("Data transfer completed successfully!" ++ nl);
           EvStdout ("Step 3: Restoring data..." ++ nl);
           EvStdout ("Executing restore command on remote server h2..."
                     ++ nl);
           EvStdout ("Restore command: sudo tar -xf /dst/dump.tar" ++ nl);
           EvStdout ("Executing remote command on u2@h2..." ++ nl);
           EvExec "ssh" ["-i"; "/keys/k2"; "-o"; "ConnectTimeout=30"; "-t";
                         "u2@h2"; "sudo tar -xf /dst/dump.tar"];
           EvStdout ("Restore completed successfully!" ++ nl)];
        tempDirs := [] |}).
Proof.
  destruct (MigrateData_blank_backup quietOS restoreOnlyTask emptyWorld)
    as (_ & Hblank).
  destruct (Hblank eq_refl) as (_ & _ & H & _).
  etransitivity.
  - apply H.
    + vm_compute. reflexivity.
    + vm_compute. discriminate.
  - reflexivity.
Defined.

(** ** The transfer engine *)

(** The three outcomes of a relay transfer end alike: the events are
    those listed, the result is as said, and the directory is gone once
    its removal has succeeded. *)
Ltac relay_outcome :=
  unfold RemoveAll, log; cbn [fst snd events tempDirs];
  split;
  [ unfold append; rewrite <- !app_assoc; reflexivity
  | split;
    [ first [discriminate | reflexivity]
    | let Hrm := fresh "Hrm" in
      let H := fresh "H" in
      intros Hrm; unfold log in Hrm; cbn [events tempDirs] in Hrm;
      rewrite Hrm; rewrite filter_In; intros [_ H];
      now rewrite String.eqb_refl in H ] ].

(** C1, as the code has it.  Take a relay task that passes validation, in
    a world where [os.MkdirTemp] yields [tempDir].  [Transfer] creates
    [tempDir], then runs rsync from the source's address into [tempDir/].
    If that download fails it is the only invocation.  Otherwise rsync is
    run a second time, from [tempDir/] to the destination's address: two
    invocations in all.  In each of the three outcomes (download failed,
    upload failed, both succeeded) the last thing done is the call
    [os.RemoveAll(tempDir)], whose error is dropped: when that removal
    succeeds, [tempDir] no longer exists afterwards.  The result is [nil]
    only when both invocations succeeded. *)
Theorem Transfer_relay_staging os task w tempDir :
  IsRelayMode task = true ->
  Validate task = None ->
  os.(makeTempDir) w "" "transx-relay-*" = inl tempDir ->
  let rsync := rsyncCmdPath task in
  let download :=
    append (rsyncArgs task) [getRsyncPath task.(Source); tempDir ++ "/"] in
  let upload :=
    append (rsyncArgs task)
           [tempDir ++ "/"; getRsyncPath task.(Destination)] in
  let downloading :=
    EvStdout ("Relay transfer mode: Downloading from source to local temp dir..." ++ nl) in
  let uploading :=
    EvStdout ("Relay transfer mode: Uploading from local temp dir to destination..." ++ nl) in
  let completed :=
    EvStdout ("Relay transfer completed successfully!" ++ nl) in
  let w1 :=
    log downloading
      {| events := append w.(events) [EvMkdirTemp tempDir];
         tempDirs := tempDir :: w.(tempDirs) |} in
  let w2 := log (EvExec rsync download) w1 in
  let w3 := log uploading w2 in
  let w4 := log (EvExec rsync upload) w3 in
  let result := fst (Transfer os task w) in
  let w' := snd (Transfer os task w) in
  let removedAt (w0 : World) :=
    os.(removeTree) w0 tempDir = None -> ~ In tempDir w'.(tempDirs) in
  match snd (os.(runCommand) w1 rsync download),
        snd (os.(runCommand) w3 rsync upload) with
  | Some _, _ =>
    w'.(events)
    = append w.(events)
        [EvMkdirTemp tempDir; downloading; EvExec rsync download;
         EvRemoveAll tempDir]
    /\ result <> None
    /\ removedAt w2
  | None, Some _ =>
    w'.(events)
    = append w.(events)
        [EvMkdirTemp tempDir; downloading; EvExec rsync download;
         uploading; EvExec rsync upload; EvRemoveAll tempDir]
    /\ result <> None
    /\ removedAt w4
  | None, None =>
    w'.(events)
    = append w.(events)
        [EvMkdirTemp tempDir; downloading; EvExec rsync download;
         uploading; EvExec rsync upload; completed;
         EvRemoveAll tempDir]
    /\ result = None
    /\ removedAt (log completed w4)
  end.
Proof.
  intros Hr Hv Hm rsync download upload downloading uploading completed
         w1 w2 w3 w4 result w' removedAt.
  subst removedAt result w'. cbv beta. unfold Transfer. rewrite Hv, Hr.
  unfold defer, bind, MkdirTemp. rewrite Hm.
  unfold Printf, CombinedOutput, ret.
  fold rsync. fold download. fold upload.
  fold downloading. fold uploading. fold completed. fold w1.
  destruct (runCommand os w1 rsync download) as [out1 [msg1 |]];
    cbn [snd fst option_map].
  - subst w4 w3 w2 w1. relay_outcome.
  - fold w2. fold w3.
    destruct (runCommand os w3 rsync upload) as [out2 [msg2 |]];
      cbn [snd fst option_map]; subst w4 w3 w2 w1; relay_outcome.
Qed.

Lemma Transfer_relay_staging_witness :
  let w' := snd (Transfer secondFailsOS relayTask emptyWorld) in
  w'.(events)
  = [EvMkdirTemp "/tmp/transx-relay-1";
     EvStdout ("Relay transfer mode: Downloading from source to local temp dir..." ++ nl);
     EvExec "rsync" ["-a"; "-e"; "ssh -i /keys/k1 -p 2222"; "u1@h1:/src";
                     "/tmp/transx-relay-1/"];
     EvStdout ("Relay transfer mode: Uploading from local temp dir to destination..." ++ nl);
     EvExec "rsync" ["-a"; "-e"; "ssh -i /keys/k1 -p 2222";
                     "/tmp/transx-relay-1/"; "u2@h2:/dst"];
     EvRemoveAll "/tmp/transx-relay-1"]
  /\ fst (Transfer secondFailsOS relayTask emptyWorld) <> None
  /\ ~ In "/tmp/transx-relay-1" w'.(tempDirs).
Proof.
  destruct (Transfer_relay_staging secondFailsOS relayTask emptyWorld
              "/tmp/transx-relay-1" eq_refl eq_refl eq_refl)
    as (Hev & Hres & Hgone).
  split; [exact Hev | split; [exact Hres | exact (Hgone eq_refl)]].
Defined.

(** When [os.RemoveAll] fails, [Transfer] still returns [nil] and the
    relay directory stays. *)
Lemma Transfer_relay_removal_fails :
  Transfer stuckDirOS relayTask emptyWorld
  = (None,
     {| events :=
          [EvMkdirTemp "/tmp/transx-relay-1";
           EvStdout ("Relay transfer mode: Downloading from source to local temp dir..." ++ nl);
           EvExec "rsync" ["-a"; "-e"; "ssh -i /keys/k1 -p 2222";
                           "u1@h1:/src"; "/tmp/transx-relay-1/"];
           EvStdout ("Relay transfer mode: Uploading from local temp dir to destination..." ++ nl);
           EvExec "rsync" ["-a"; "-e"; "ssh -i /keys/k1 -p 2222";
                           "/tmp/transx-relay-1/"; "u2@h2:/dst"];
           EvStdout ("Relay transfer completed successfully!" ++ nl);
           EvRemoveAll "/tmp/transx-relay-1"];
        tempDirs := ["/tmp/transx-relay-1"] |}).
Proof. reflexivity. Qed.

(** C1, as stated, fails: a relay task whose download fails invokes the
    sync tool once only; a relay task that does not pass validation, or for
    which no temporary directory can be made, invokes nothing. *)
Lemma Transfer_relay_fewer_than_two :
  IsRelayMode relayTask = true
  /\ invoked (events (snd (Transfer failingOS relayTask emptyWorld)))
     = [("rsync", ["-a"; "-e"; "ssh -i /keys/k1 -p 2222"; "u1@h1:/src";
                   "/tmp/transx-relay-1/"])]
  /\ invoked (events (snd (Transfer noTempDirOS relayTask emptyWorld))) = []
  /\ IsRelayMode badPortRelayTask = true
  /\ invoked (events (snd (Transfer quietOS badPortRelayTask emptyWorld)))
     = [].
Proof. repeat split. Qed.

(** X22.  A task in direct mode that passes validation
    makes [Transfer] run rsync once, with the option flags, then the
    remote-shell hook, then the two addresses.  When the source is remote
    and its key path is not empty, the hook is [-e] with the ssh command
    made of the source's key and port and the task's host-key policy;
    when the source is local, the destination is remote and its key path
    is not empty, the hook is made of the destination's key and port
    instead; when neither side is remote there is no hook. *)
Theorem Transfer_direct_remote_shell os task w :
  IsRelayMode task = false ->
  Validate task = None ->
  let ssh (e : EndpointDetails) :=
    strings.Join
      (["ssh"]
       ++ (if nonBlank e.(SSHPrivateKeyPath)
           then ["-i"; e.(SSHPrivateKeyPath)] else [])
       ++ (if e.(SSHPort) =? 0 then [] else ["-p"; strconv.Itoa e.(SSHPort)])
       ++ (if task.(RsyncOptions).(InsecureSkipHostKeyVerification)
           then ["-o"; "StrictHostKeyChecking=accept-new";
                 "-o"; "UserKnownHostsFile=/dev/null"]
           else []))%list
      " " in
  exists hook : list string,
    events (snd (Transfer os task w))
    = (events w
       ++ [EvExec (rsyncCmdPath task)
             (optionArgs task ++ hook
              ++ [getRsyncPath task.(Source);
                  getRsyncPath task.(Destination)])])%list
    /\ (isRemote task.(Source) = true ->
        task.(Source).(SSHPrivateKeyPath) <> "" ->
        hook = ["-e"; ssh task.(Source)])
    /\ (isRemote task.(Source) = false ->
        isRemote task.(Destination) = true ->
        task.(Destination).(SSHPrivateKeyPath) <> "" ->
        hook = ["-e"; ssh task.(Destination)])
    /\ (isRemote task.(Source) = false ->
        isRemote task.(Destination) = false ->
        hook = []).
Proof.
  intros Hr Hv ssh.
  exists (if nonEmpty (sshOptString task)
          then ["-e"; sshOptString task] else []).
  split.
  - unfold Transfer. rewrite Hv, Hr.
    unfold bind, CombinedOutput, ret, rsyncArgs.
    destruct (runCommand os w _ _) as [out [msg |]];
      cbn [snd events log];
      destruct (nonEmpty (sshOptString task));
      unfold append; rewrite <- ?app_assoc; reflexivity.
  - subst ssh. unfold sshOptString, activeRemoteEndpointForRsync.
    repeat split.
    + intros Rs Hk. apply nonEmpty_true in Hk. rewrite Rs, Hk.
      cbn [andb].
      destruct (nonBlank (SSHPrivateKeyPath (Source task)));
        destruct (SSHPort (Source task) =? 0);
        destruct (InsecureSkipHostKeyVerification (RsyncOptions task));
        reflexivity.
    + intros Rs Rd Hk. apply nonEmpty_true in Hk. rewrite Rs, Rd, Hk.
      cbn [andb].
      destruct (nonBlank (SSHPrivateKeyPath (Destination task)));
        destruct (SSHPort (Destination task) =? 0);
        destruct (InsecureSkipHostKeyVerification (RsyncOptions task));
        reflexivity.
    + intros Rs Rd. rewrite Rs, Rd. reflexivity.
Qed.

Lemma Transfer_direct_remote_shell_witness :
  events (snd (Transfer quietOS uploadTask emptyWorld))
  = [EvExec "rsync"
       ["-a"; "-z"; "--exclude=*.tmp"; "-e";
        "ssh -i /keys/k2 -p 2222 -o StrictHostKeyChecking=accept-new -o UserKnownHostsFile=/dev/null";
        "/src"; "u2@h2:/dst"]].
Proof.
  destruct (Transfer_direct_remote_shell quietOS uploadTask emptyWorld
              eq_refl eq_refl) as (hook & Hev & _ & Hdst & _).
  rewrite Hev.
  rewrite (Hdst eq_refl eq_refl).
  - reflexivity.
  - vm_compute. discriminate.
Defined.

(** C5.  The code at a failing input: with a local source and a remote
    destination that has port 2222 but no key, [Transfer] runs rsync
    without any remote-shell hook, so the destination's port is in no
    argument; [executeCommand] on that same endpoint does pass
    [-p 2222]. *)
Lemma Transfer_direct_keyless_no_hook :
  IsRelayMode keylessUploadTask = false
  /\ isRemote keylessUploadTask.(Source) = false
  /\ isRemote keylessUploadTask.(Destination) = true
  /\ keylessUploadTask.(Destination).(SSHPort) = 2222
  /\ events (snd (Transfer quietOS keylessUploadTask emptyWorld))
     = [EvExec "rsync" ["-a"; "/src"; "h2:/dst"]]
  /\ events (snd (executeCommand quietOS "ls /dst"
                    keylessUploadTask.(Destination)
                    keylessUploadTask.(RsyncOptions) emptyWorld))
     = [EvStdout ("Executing remote command on h2..." ++ nl);
        EvExec "ssh" ["-p"; "2222"; "-o"; "ConnectTimeout=30"; "h2";
                      "ls /dst"]].
Proof. repeat split. Qed.

(** * Further properties of the package *)

(** ** Bytes, white space and substrings *)

Lemma substring_whole s : substring 0 (String.length s) s = s.
Proof. induction s as [| c s IH]; cbn; [reflexivity | now rewrite IH]. Qed.

Lemma from_1 c s : strings.from 1 (String c s) = s.
Proof. unfold strings.from. cbn. rewrite Nat.sub_0_r. apply substring_whole. Qed.

Lemma from_2 c1 c2 s : strings.from 2 (String c1 (String c2 s)) = s.
Proof. unfold strings.from. cbn. rewrite Nat.sub_0_r. apply substring_whole. Qed.

Lemma from_3 c1 c2 c3 s :
  strings.from 3 (String c1 (String c2 (String c3 s))) = s.
Proof. unfold strings.from. cbn. rewrite Nat.sub_0_r. apply substring_whole. Qed.

Lemma from_4 c1 c2 c3 c4 s :
  strings.from 4 (String c1 (String c2 (String c3 (String c4 s)))) = s.
Proof. unfold strings.from. cbn. rewrite Nat.sub_0_r. apply substring_whole. Qed.

Lemma plainASCII_not_cont c lo hi :
  plainASCII c = true -> 0x80 <= lo -> utf8.between lo hi (utf8.byte c) = false.
Proof.
  unfold plainASCII, utf8.between, utf8.RuneSelf. intros H Hlo.
  apply andb_true_iff in H as [H _]. apply Z.ltb_lt in H.
  apply andb_false_iff. left. apply Z.leb_gt. lia.
Qed.

Lemma plainASCII_decode c s :
  plainASCII c = true ->
  utf8.DecodeRuneInString (String c s) = (utf8.byte c, 1%nat).
Proof.
  unfold plainASCII. intros H. apply andb_true_iff in H as [H _].
  cbn [utf8.DecodeRuneInString]. cbv zeta. now rewrite H.
Qed.

Lemma plainASCII_not_space c :
  plainASCII c = true -> unicode.IsSpace (utf8.byte c) = false.
Proof.
  unfold plainASCII. intros H. apply andb_true_iff in H as [_ H].
  now apply negb_true_iff.
Qed.

Lemma cont_plainASCII c : plainASCII c = true -> utf8.cont (utf8.byte c) = false.
Proof. intros H. unfold utf8.cont. apply plainASCII_not_cont; [exact H | lia]. Qed.

Lemma RuneError_not_space : unicode.IsSpace utf8.RuneError = false.
Proof. reflexivity. Qed.

(** Decoding a white-space rune at the front never consumes a plain
    ASCII byte further on. *)
Lemma decode_space_skips a0 a1 c b :
  plainASCII c = true ->
  let s := String a0 (a1 ++ String c b) in
  unicode.IsSpace (fst (utf8.DecodeRuneInString s)) = false
  \/ exists a', strings.from (snd (utf8.DecodeRuneInString s)) s
                = a' ++ String c b.
Proof.
  intros Hc s. subst s.
  cbn [utf8.DecodeRuneInString]. cbv zeta.
  destruct (utf8.byte a0 <? utf8.RuneSelf).
  { right. exists a1. apply from_1. }
  destruct (utf8.between 194 223 (utf8.byte a0)).
  { destruct a1 as [| c1 a2]; cbn [String.append].
    - rewrite (cont_plainASCII c Hc). now left.
    - destruct (utf8.cont (utf8.byte c1)); [| now left].
      right. exists a2. apply from_2. }
  destruct (utf8.between 224 239 (utf8.byte a0)).
  { destruct a1 as [| c1 [| c2 a3]]; cbn [String.append].
    - destruct b; [now left |].
      rewrite (plainASCII_not_cont c _ _ Hc)
        by (destruct (utf8.byte a0 =? 224); lia).
      now left.
    - rewrite (cont_plainASCII c Hc), andb_false_r. now left.
    - destruct (_ && _); [| now left].
      right. exists a3. apply from_3. }
  destruct (utf8.between 240 244 (utf8.byte a0)).
  { destruct a1 as [| c1 [| c2 [| c3 a4]]]; cbn [String.append].
    - destruct b as [| ? [| ? ?]]; try (now left).
      rewrite (plainASCII_not_cont c _ _ Hc)
        by (destruct (utf8.byte a0 =? 240); lia).
      now left.
    - destruct b; [now left |].
      rewrite (cont_plainASCII c Hc), andb_false_r. now left.
    - rewrite (cont_plainASCII c Hc), andb_false_r. now left.
    - destruct (_ && _ && _); [| now left].
      right. exists a4. apply from_4. }
  now left.
Qed.

(** Trimming on the left stops at the latest at a plain ASCII byte. *)
Lemma trimLeft_keeps fuel : forall a c b,
  plainASCII c = true ->
  exists a', strings.trimLeft fuel (a ++ String c b) = a' ++ String c b.
Proof.
  induction fuel as [| fuel IH]; intros a c b Hc.
  - exists a. reflexivity.
  - destruct a as [| a0 a1].
    + exists "". cbn [String.append strings.trimLeft].
      rewrite (plainASCII_decode c b Hc), (plainASCII_not_space c Hc).
      reflexivity.
    + cbn [String.append strings.trimLeft].
      pose proof (decode_space_skips a0 a1 c b Hc) as H. cbv zeta in H.
      destruct (utf8.DecodeRuneInString (String a0 (a1 ++ String c b)))
        as [r size].
      cbn [fst snd] in H. destruct H as [H | [a' H]].
      * rewrite H. exists (String a0 a1). reflexivity.
      * destruct (unicode.IsSpace r).
        -- rewrite H. apply IH. exact Hc.
        -- exists (String a0 a1). reflexivity.
Qed.

Lemma between_lower lo hi x : utf8.between lo hi x = true -> lo <= x.
Proof.
  unfold utf8.between. intros H. apply andb_true_iff in H as [H _].
  now apply Z.leb_le.
Qed.

Lemma plainASCII_below c : plainASCII c = true -> utf8.byte c < 0x80.
Proof.
  unfold plainASCII, utf8.RuneSelf. intros H.
  apply andb_true_iff in H as [H _]. now apply Z.ltb_lt.
Qed.

(** A rune of two bytes or more has no ASCII byte. *)
Lemma decode_multibyte_no_ascii t r size i c :
  utf8.DecodeRuneInString t = (r, size) ->
  (2 <= size)%nat -> (i < size)%nat ->
  get i t = Some c -> plainASCII c = false.
Proof.
  intros Hd H2 Hi Hg.
  destruct (plainASCII c) eqn:Hc; [exfalso | reflexivity].
  apply plainASCII_below in Hc.
  destruct t as [| c0 t0]; cbn [utf8.DecodeRuneInString] in Hd; cbv zeta in Hd.
  { inversion Hd; subst; lia. }
  destruct (utf8.byte c0 <? utf8.RuneSelf); [inversion Hd; subst; lia |].
  destruct (utf8.between 194 223 (utf8.byte c0)) eqn:B2.
  { destruct t0 as [| c1 t1]; [inversion Hd; subst; lia |].
    destruct (utf8.cont (utf8.byte c1)) eqn:C1;
      inversion Hd; subst; [| lia].
    apply between_lower in B2, C1.
    destruct i as [| [| i]]; cbn in Hg; [| | lia];
      inversion Hg; subst; lia. }
  destruct (utf8.between 224 239 (utf8.byte c0)) eqn:B3.
  { destruct t0 as [| c1 [| c2 t2]]; try (inversion Hd; subst; lia).
    destruct (utf8.between _ _ (utf8.byte c1)) eqn:C1;
      cbn [andb] in Hd; [| inversion Hd; subst; lia].
    destruct (utf8.cont (utf8.byte c2)) eqn:C2;
      inversion Hd; subst; [| lia].
    apply between_lower in B3, C1, C2.
    assert (0x80 <= utf8.byte c1)
      by (destruct (utf8.byte c0 =? 224); lia).
    destruct i as [| [| [| i]]]; cbn in Hg; [| | | lia];
      inversion Hg; subst; lia. }
  destruct (utf8.between 240 244 (utf8.byte c0)) eqn:B4.
  { destruct t0 as [| c1 [| c2 [| c3 t3]]]; try (inversion Hd; subst; lia).
    destruct (utf8.between _ _ (utf8.byte c1)) eqn:C1;
      cbn [andb] in Hd; [| inversion Hd; subst; lia].
    destruct (utf8.cont (utf8.byte c2)) eqn:C2;
      cbn [andb] in Hd; [| inversion Hd; subst; lia].
    destruct (utf8.cont (utf8.byte c3)) eqn:C3;
      inversion Hd; subst; [| lia].
    apply between_lower in B4, C1, C2, C3.
    assert (0x80 <= utf8.byte c1)
      by (destruct (utf8.byte c0 =? 240); lia).
    destruct i as [| [| [| [| i]]]]; cbn in Hg; [| | | | lia];
      inversion Hg; subst; lia. }
  inversion Hd; subst; lia.
Qed.

Lemma get_middle a c b : get (String.length a) (a ++ String c b) = Some c.
Proof.
  exact (eq_sym (append_correct2 a (String c b) 0)).
Qed.

Lemma length_append a b :
  String.length (a ++ b) = (String.length a + String.length b)%nat.
Proof. induction a as [| x a IH]; cbn; [reflexivity | now rewrite IH]. Qed.

(** What [DecodeLastRuneInString] takes off the end as white space lies
    after the last plain ASCII byte. *)
Lemma decodeLast_space_after a c b :
  plainASCII c = true ->
  let s := a ++ String c b in
  unicode.IsSpace (fst (utf8.DecodeLastRuneInString s)) = false
  \/ (snd (utf8.DecodeLastRuneInString s) <= String.length b)%nat.
Proof.
  intros Hc s.
  assert (Hlen : String.length s = S (String.length a + String.length b)).
  { subst s. rewrite length_append. cbn. lia. }
  unfold utf8.DecodeLastRuneInString. rewrite Hlen.
  destruct b as [| b0 b1].
  { left. cbn [String.length]. rewrite Nat.add_0_r. subst s.
    rewrite get_middle.
    pose proof (plainASCII_below c Hc) as Hb. unfold utf8.RuneSelf.
    apply Z.ltb_lt in Hb. rewrite Hb. cbn [fst].
    now apply plainASCII_not_space. }
  destruct (get (String.length a + String.length (String b0 b1)) s)
    as [z |]; [| now left].
  destruct (utf8.byte z <? utf8.RuneSelf).
  { right. cbn. lia. }
  set (start := utf8.lastStart _ _ _).
  destruct (utf8.DecodeRuneInString _) as [r size] eqn:Hd.
  destruct (Nat.eqb (start + size)
              (S (String.length a + String.length (String b0 b1)))) eqn:He;
    [| now left].
  apply Nat.eqb_eq in He. cbn [fst snd].
  destruct (Nat.le_gt_cases size (String.length (String b0 b1)))
    as [Hle | Hgt]; [now right |].
  exfalso.
  cbn [String.length] in *.
  assert (Hg : get (String.length a - start)
                 (substring start
                    (S (String.length a + S (String.length b1)) - start) s)
               = Some c).
  { rewrite substring_correct1 by lia.
    replace (String.length a - start + start)%nat with (String.length a)
      by lia.
    subst s. apply get_middle. }
  assert (Hno : plainASCII c = false).
  { apply (decode_multibyte_no_ascii _ _ _ (String.length a - start)%nat _ Hd);
      [lia | lia | exact Hg]. }
  rewrite Hno in Hc. discriminate.
Qed.

Lemma substring_prefix_app a : forall k q,
  substring 0 (String.length a + k) (a ++ q) = a ++ substring 0 k q.
Proof.
  induction a as [| x a IH]; intros k q; cbn; [reflexivity |].
  now rewrite IH.
Qed.

Lemma trimRight_step fuel s :
  s <> "" ->
  strings.trimRight (S fuel) s
  = (let (r, size) := utf8.DecodeLastRuneInString s in
     if unicode.IsSpace r
     then strings.trimRight fuel (substring 0 (String.length s - size) s)
     else s).
Proof. destruct s; [congruence | reflexivity]. Qed.

(** Trimming on the right stops at the latest at a plain ASCII byte. *)
Lemma trimRight_keeps fuel : forall a c b,
  plainASCII c = true ->
  exists b', strings.trimRight fuel (a ++ String c b) = a ++ String c b'.
Proof.
  induction fuel as [| fuel IH]; intros a c b Hc.
  - exists b. reflexivity.
  - rewrite trimRight_step by (destruct a; discriminate).
    pose proof (decodeLast_space_after a c b Hc) as H. cbv zeta in H.
    destruct (utf8.DecodeLastRuneInString (a ++ String c b)) as [r size].
    cbn [fst snd] in H.
    destruct (unicode.IsSpace r); [| exists b; reflexivity].
    destruct H as [H | H]; [discriminate |].
    rewrite length_append. cbn [String.length].
    replace (String.length a + S (String.length b) - size)%nat
      with (String.length a + S (String.length b - size))%nat by lia.
    rewrite substring_prefix_app. cbn [substring].
    apply IH. exact Hc.
Qed.

(** A string with a plain ASCII byte in it is not blank. *)
Lemma TrimSpace_not_empty a c b :
  plainASCII c = true -> strings.TrimSpace (a ++ String c b) <> "".
Proof.
  intros Hc. unfold strings.TrimSpace.
  destruct (trimLeft_keeps (String.length (a ++ String c b)) a c b Hc)
    as [a' Ha].
  rewrite Ha.
  destruct (trimRight_keeps (String.length (a' ++ String c b)) a' c b Hc)
    as [b' Hb].
  rewrite Hb. destruct a'; discriminate.
Qed.

(** [prefix] finds exactly the prefixes. *)
Lemma prefix_app p : forall s,
  prefix p s = true <-> exists b, s = p ++ b.
Proof.
  induction p as [| x p IH]; intros s.
  - split; [intros _; now exists s | intros _; now destruct s].
  - destruct s as [| y s]; cbn.
    + split; [discriminate | intros [b Hb]; discriminate].
    + destruct (ascii_dec x y) as [-> | Hn].
      * rewrite IH. split; intros [b Hb]; exists b; [now subst | now inversion Hb].
      * split; [discriminate | intros [b Hb]; inversion Hb; congruence].
Qed.

(** [strings.Contains] finds exactly the substrings. *)
Lemma Contains_substring substr : forall s,
  strings.Contains s substr = true <-> exists a b, s = a ++ substr ++ b.
Proof.
  induction s as [| x s IH]; cbn [strings.Contains].
  - rewrite orb_false_r, prefix_app. split.
    + intros [b Hb]. now exists "", b.
    + intros (a & b & H). destruct a; [now exists b | discriminate].
  - rewrite orb_true_iff, prefix_app, IH. split.
    + intros [[b Hb] | (a & b & H)].
      * now exists "", b.
      * exists (String x a), b. cbn. now rewrite H.
    + intros (a & b & H). destruct a as [| y a].
      * left. now exists b.
      * right. inversion H. now exists a, b.
Qed.


(** ** Addresses and validation *)

(** The address of a remote endpoint has an [@] or a [:] in it, so it is
    never blank. *)
Lemma getRsyncPath_remote_not_blank e :
  isRemote e = true -> strings.TrimSpace (getRsyncPath e) <> "".
Proof.
  intros Hr. unfold getRsyncPath. rewrite Hr.
  destruct (nonBlank (Username e)).
  - apply (TrimSpace_not_empty (Username e) "@"%char). reflexivity.
  - apply (TrimSpace_not_empty (HostIP e) ":"%char). reflexivity.
Qed.

(** X1.  The address handed to rsync is blank (empty after trimming)
    exactly for a local endpoint whose data path is blank. *)
Theorem getRsyncPath_blank_iff e :
  strings.TrimSpace (getRsyncPath e) = ""
  <-> isRemote e = false /\ strings.TrimSpace e.(DataPath) = "".
Proof.
  destruct (isRemote e) eqn:Hr.
  - pose proof (getRsyncPath_remote_not_blank e Hr) as Hn.
    split; [contradiction | intros [H _]; discriminate].
  - unfold getRsyncPath. rewrite Hr. tauto.
Qed.

(** Hence the first half of each path test of [Validate] decides
    nothing. *)
Lemma path_check e :
  isEmpty (strings.TrimSpace (getRsyncPath e))
  || isEmpty (strings.TrimSpace (DataPath e))
  = isEmpty (strings.TrimSpace (DataPath e)).
Proof.
  destruct (isRemote e) eqn:Hr.
  - apply getRsyncPath_remote_not_blank, isEmpty_false in Hr.
    now rewrite Hr.
  - unfold getRsyncPath. rewrite Hr. apply orb_diag.
Qed.

(** [Validate] as a decision table over data paths, host addresses and
    ports. *)
Lemma Validate_table task :
  Validate task =
    (if isEmpty (strings.TrimSpace task.(Source).(DataPath))
     then Some (Errorf "source path must be provided for rsync task")
     else if isEmpty (strings.TrimSpace task.(Destination).(DataPath))
     then Some (Errorf "destination path must be provided for rsync task")
     else if isRemote task.(Source) && portOutOfRange task.(Source).(SSHPort)
     then Some (Errorf ("source SSH port "
                        ++ strconv.Itoa task.(Source).(SSHPort)
                        ++ " is out of valid range (1-65535)"))
     else if isRemote task.(Destination)
             && portOutOfRange task.(Destination).(SSHPort)
     then Some (Errorf ("destination SSH port "
                        ++ strconv.Itoa task.(Destination).(SSHPort)
                        ++ " is out of valid range (1-65535)"))
     else None).
Proof.
  unfold Validate. rewrite !path_check.
  destruct (isEmpty (strings.TrimSpace (DataPath (Source task))));
    [reflexivity |].
  destruct (isEmpty (strings.TrimSpace (DataPath (Destination task))));
    [reflexivity |].
  cbn [failIf andThen].
  destruct (isRemote (Source task)) eqn:Rs;
    destruct (isRemote (Destination task)) eqn:Rd;
    try rewrite (isRemote_host_not_empty _ Rs);
    try rewrite (isRemote_host_not_empty _ Rd);
    cbn [andb failIf andThen];
    destruct (portOutOfRange (SSHPort (Source task)));
    destruct (portOutOfRange (SSHPort (Destination task)));
    reflexivity.
Qed.

(** X2.  [Validate] rejects a blank source data path with "source path
    must be provided", for a local and for a remote source and whatever
    else the task holds; a blank destination data path is rejected with
    "destination path must be provided" once the source path is there. *)
Theorem Validate_missing_path task :
  (strings.TrimSpace task.(Source).(DataPath) = "" ->
   Validate task
   = Some (Errorf "source path must be provided for rsync task"))
  /\ (strings.TrimSpace task.(Source).(DataPath) <> "" ->
      strings.TrimSpace task.(Destination).(DataPath) = "" ->
      Validate task
      = Some (Errorf "destination path must be provided for rsync task")).
Proof.
  rewrite Validate_table. split.
  - intros H. apply isEmpty_true in H. now rewrite H.
  - intros H1 H2. apply isEmpty_false in H1. apply isEmpty_true in H2.
    now rewrite H1, H2.
Qed.

Lemma Validate_missing_path_witness :
  Validate remoteNoPathTask
  = Some (Errorf "source path must be provided for rsync task")
  /\ Validate backupNoDestinationTask
     = Some (Errorf "destination path must be provided for rsync task").
Proof.
  split.
  - apply (proj1 (Validate_missing_path remoteNoPathTask)). reflexivity.
  - apply (proj2 (Validate_missing_path backupNoDestinationTask)).
    + vm_compute. discriminate.
    + reflexivity.
Defined.

(** X3.  [Validate] accepts a task exactly when both data paths are not
    blank and every remote endpoint's port is 0 or within 1-65535. *)
Theorem Validate_accepts_iff task :
  Validate task = None
  <-> strings.TrimSpace task.(Source).(DataPath) <> ""
      /\ strings.TrimSpace task.(Destination).(DataPath) <> ""
      /\ (isRemote task.(Source) = true ->
          task.(Source).(SSHPort) = 0
          \/ 1 <= task.(Source).(SSHPort) <= 65535)
      /\ (isRemote task.(Destination) = true ->
          task.(Destination).(SSHPort) = 0
          \/ 1 <= task.(Destination).(SSHPort) <= 65535).
Proof.
  rewrite Validate_table.
  rewrite <- (isEmpty_false (strings.TrimSpace (DataPath (Source task)))).
  rewrite <- (isEmpty_false
                (strings.TrimSpace (DataPath (Destination task)))).
  rewrite <- !portOutOfRange_false.
  destruct (isEmpty (strings.TrimSpace (DataPath (Source task))));
    destruct (isEmpty (strings.TrimSpace (DataPath (Destination task))));
    destruct (isRemote (Source task));
    destruct (isRemote (Destination task));
    destruct (portOutOfRange (SSHPort (Source task)));
    destruct (portOutOfRange (SSHPort (Destination task)));
    cbn [andb]; intuition congruence.
Qed.

(** X4.  [Validate] looks at host addresses, data paths and ports only:
    tasks that agree on these get the same verdict, whatever their user
    names, key paths, commands and rsync options. *)
Theorem Validate_fields task task' :
  task.(Source).(HostIP) = task'.(Source).(HostIP) ->
  task.(Source).(DataPath) = task'.(Source).(DataPath) ->
  task.(Source).(SSHPort) = task'.(Source).(SSHPort) ->
  task.(Destination).(HostIP) = task'.(Destination).(HostIP) ->
  task.(Destination).(DataPath) = task'.(Destination).(DataPath) ->
  task.(Destination).(SSHPort) = task'.(Destination).(SSHPort) ->
  Validate task = Validate task'.
Proof.
  intros H1 H2 H3 H4 H5 H6. rewrite !Validate_table.
  unfold isRemote. now rewrite H1, H2, H3, H4, H5, H6.
Qed.

Lemma Validate_fields_witness :
  Validate relayTaskOtherKeys = Validate relayTask.
Proof. apply (Validate_fields relayTaskOtherKeys relayTask); reflexivity. Defined.

(** ** What a call leaves behind *)








(** ** More on the transfer engine *)



(** X6.  When a data path is blank, or a remote endpoint's port is set
    and outside 1-65535, [Transfer] does nothing to the world (no process,
    no directory, no output) and returns the validation error wrapped in
    "rsync task validation failed". *)
Theorem Transfer_invalid_no_effect os task w :
  strings.TrimSpace task.(Source).(DataPath) = ""
  \/ strings.TrimSpace task.(Destination).(DataPath) = ""
  \/ (isRemote task.(Source) = true
      /\ task.(Source).(SSHPort) <> 0
      /\ (task.(Source).(SSHPort) < 1 \/ 65535 < task.(Source).(SSHPort)))
  \/ (isRemote task.(Destination) = true
      /\ task.(Destination).(SSHPort) <> 0
      /\ (task.(Destination).(SSHPort) < 1
          \/ 65535 < task.(Destination).(SSHPort))) ->
  exists verr,
    Validate task = Some verr
    /\ Transfer os task w
       = (Some (Wrapf "rsync task validation failed: " verr ""), w).
Proof.
  intros H. unfold Transfer. rewrite Validate_table.
  rewrite <- !isEmpty_true, <- !portOutOfRange_true in H.
  destruct (isEmpty (strings.TrimSpace (DataPath (Source task))));
    [eexists; split; reflexivity |].
  destruct (isEmpty (strings.TrimSpace (DataPath (Destination task))));
    [eexists; split; reflexivity |].
  destruct (isRemote (Source task));
    destruct (portOutOfRange (SSHPort (Source task)));
    cbn [andb]; try (eexists; split; reflexivity);
    destruct (isRemote (Destination task));
    destruct (portOutOfRange (SSHPort (Destination task)));
    cbn [andb]; try (eexists; split; reflexivity);
    exfalso; intuition discriminate.
Qed.

Lemma Transfer_invalid_no_effect_witness :
  exists verr,
    Validate badPortRelayTask = Some verr
    /\ Transfer quietOS badPortRelayTask emptyWorld
       = (Some (Wrapf "rsync task validation failed: " verr ""), emptyWorld).
Proof.
  apply (Transfer_invalid_no_effect quietOS badPortRelayTask emptyWorld).
  right. right. left.
  split; [reflexivity | split; [discriminate | right; reflexivity]].
Defined.

(** [Transfer] returns [nil] on valid tasks only. *)
Lemma Transfer_nil_valid os task w :
  fst (Transfer os task w) = None -> Validate task = None.
Proof.
  unfold Transfer. destruct (Validate task); [discriminate | reflexivity].
Qed.









(** X10.  In direct mode, when the endpoint that governs the remote
    shell (the source if it is remote, else the remote destination) has an
    empty key path, rsync is run with the option flags and the two
    addresses only: no [-e] hook is passed, whatever the endpoint's port
    and the host-key option are. *)
Theorem Transfer_direct_without_key os task w :
  IsRelayMode task = false ->
  Validate task = None ->
  (isRemote task.(Source) = true
   /\ task.(Source).(SSHPrivateKeyPath) = "")
  \/ (isRemote task.(Source) = false
      /\ isRemote task.(Destination) = true
      /\ task.(Destination).(SSHPrivateKeyPath) = "") ->
  events (snd (Transfer os task w))
  = append (events w)
      [EvExec (rsyncCmdPath task)
         (append (optionArgs task)
            [getRsyncPath task.(Source); getRsyncPath task.(Destination)])].
Proof.
  intros Hr Hv Hk. unfold Transfer. rewrite Hv, Hr.
  assert (Hargs : rsyncArgs task = optionArgs task).
  { unfold rsyncArgs, sshOptString, activeRemoteEndpointForRsync.
    destruct Hk as [[Rs Hk] | (Rs & Rd & Hk)].
    - rewrite Rs, Hk. reflexivity.
    - rewrite Rs, Rd, Hk. reflexivity. }
  rewrite Hargs. unfold bind, CombinedOutput, ret.
  destruct (runCommand os w _ _) as [out [msg |]]; reflexivity.
Qed.

Lemma Transfer_direct_without_key_witness :
  events (snd (Transfer quietOS keylessUploadTask emptyWorld))
  = append (events emptyWorld)
      [EvExec "rsync" ["-a"; "/src"; "h2:/dst"]].
Proof.
  apply (Transfer_direct_without_key quietOS keylessUploadTask emptyWorld).
  - reflexivity.
  - reflexivity.
  - right. repeat split.
Defined.

(** ** More on the command executor *)

(** [executeCommand] on a command that is not blank. *)
Lemma executeCommand_runs os commandToExecute endpoint sshConfig w :
  strings.TrimSpace commandToExecute <> "" ->
  exists text name args,
    let w1 := log (EvStdout text) w in
    executeCommand os commandToExecute endpoint sshConfig w
    = ((fst (os.(runCommand) w1 name args),
        option_map OSError (snd (os.(runCommand) w1 name args))),
       log (EvExec name args) w1)
    /\ last args "" = commandToExecute
    /\ (isRemote endpoint = false ->
        name = "sh" /\ args = ["-c"; commandToExecute])
    /\ (isRemote endpoint = true -> name = "ssh").
Proof.
  intros Hc. apply isEmpty_false in Hc.
  unfold executeCommand. rewrite Hc.
  destruct (isRemote endpoint) eqn:Hr.
  - rewrite (isRemote_host_not_empty _ Hr).
    unfold bind, Printf, CombinedOutput, append.
    destruct (nonBlank (SSHPrivateKeyPath endpoint));
      destruct (negb (SSHPort endpoint =? 0));
      destruct (InsecureSkipHostKeyVerification sshConfig);
      destruct (strings.Contains commandToExecute "sudo");
      cbn [hd tl List.app];
      match goal with
      | |- context [runCommand os (log (EvStdout ?t) w) ?n ?a] =>
        exists t, n, a
      end; cbv zeta;
      (split;
       [ destruct (runCommand os _ _ _) as [out err]; reflexivity
       | split; [reflexivity | split; [discriminate | reflexivity]] ]).
  - unfold bind, Printf, CombinedOutput.
    match goal with
    | |- context [runCommand os (log (EvStdout ?t) w) ?n ?a] =>
      exists t, n, a
    end; cbv zeta.
    split; [| split; [| split; [intros _; split; reflexivity | discriminate]]].
    + destruct (runCommand os _ _ _) as [out err]. reflexivity.
    + reflexivity.
Qed.

(** X11.  For a command that is not blank, [executeCommand] prints one
    line and makes exactly one [CombinedOutput] call, whose last argument
    is the command, unchanged; on a local endpoint the call is
    [sh -c command], on a remote one it is of [ssh]; the output and the
    error of that call (a failure to start the program included) are what
    is returned.  Whether a process came to exist is up to the operating
    system and is not said here. *)
Theorem executeCommand_one_invocation os commandToExecute endpoint sshConfig w :
  strings.TrimSpace commandToExecute <> "" ->
  exists text name args,
    let w0 := log (EvStdout text) w in
    events (snd (executeCommand os commandToExecute endpoint sshConfig w))
    = append w.(events) [EvStdout text; EvExec name args]
    /\ fst (executeCommand os commandToExecute endpoint sshConfig w)
       = (fst (os.(runCommand) w0 name args),
          option_map OSError (snd (os.(runCommand) w0 name args)))
    /\ last args "" = commandToExecute
    /\ (isRemote endpoint = false ->
        name = "sh" /\ args = ["-c"; commandToExecute])
    /\ (isRemote endpoint = true -> name = "ssh").
Proof.
  intros Hc.
  destruct (executeCommand_runs os commandToExecute endpoint sshConfig w Hc)
    as (text & name & args & He & Hlast & Hl & Hr).
  exists text, name, args. cbv zeta in *. rewrite He. cbn [fst snd].
  repeat split; try assumption.
  - cbn. unfold append. now rewrite <- app_assoc.
  - now apply Hl.
  - now apply Hl.
Qed.

Lemma executeCommand_one_invocation_witness :
  exists text name args,
    events (snd (executeCommand quietOS "make backup" (localEndpoint "/src")
                   plainOptions emptyWorld))
    = append (events emptyWorld) [EvStdout text; EvExec name args]
    /\ name = "sh" /\ args = ["-c"; "make backup"].
Proof.
  destruct (executeCommand_one_invocation quietOS "make backup"
              (localEndpoint "/src") plainOptions emptyWorld)
    as (text & name & args & Hev & _ & _ & Hlocal & _).
  - vm_compute. discriminate.
  - exists text, name, args. destruct (Hlocal eq_refl) as [Hn Ha].
    split; [exact Hev | split; [exact Hn | exact Ha]].
Defined.

(** X12.  On a remote endpoint the argument before the target host is
    [-t] exactly when "sudo" occurs somewhere in the command text, as a
    word or inside one. *)
Theorem executeCommand_pty_iff_sudo os commandToExecute endpoint sshConfig w :
  strings.TrimSpace commandToExecute <> "" ->
  isRemote endpoint = true ->
  exists text args,
    events (snd (executeCommand os commandToExecute endpoint sshConfig w))
    = append (events w) [EvStdout text; EvExec "ssh" args]
    /\ (nth_error (rev args) 2 = Some "-t"
        <-> exists a b, commandToExecute = a ++ "sudo" ++ b).
Proof.
  intros Hc Hr. apply isEmpty_false in Hc.
  unfold executeCommand.
  rewrite Hc, Hr, (isRemote_host_not_empty _ Hr).
  unfold bind, Printf, CombinedOutput, append.
  destruct (nonBlank (SSHPrivateKeyPath endpoint));
    destruct (negb (SSHPort endpoint =? 0));
    destruct (InsecureSkipHostKeyVerification sshConfig);
    destruct (strings.Contains commandToExecute "sudo") eqn:Hs;
    cbn [hd tl List.app];
    match goal with
    | |- context [runCommand os (log (EvStdout ?t) w) ?n ?a] =>
      exists t, a
    end;
    destruct (runCommand os _ _ _) as [out err];
    (split;
     [ cbn [snd events log]; unfold append; rewrite <- app_assoc; reflexivity
     | rewrite <- Contains_substring, Hs; cbn; split; congruence ]).
Qed.

Lemma executeCommand_pty_iff_sudo_witness :
  exists text args,
    events (snd (executeCommand quietOS "sudo systemctl stop db"
                   (remoteEndpoint "u" "h" 0 "/d" "") plainOptions
                   emptyWorld))
    = append (events emptyWorld) [EvStdout text; EvExec "ssh" args]
    /\ nth_error (rev args) 2 = Some "-t".
Proof.
  destruct (executeCommand_pty_iff_sudo quietOS "sudo systemctl stop db"
              (remoteEndpoint "u" "h" 0 "/d" "") plainOptions emptyWorld)
    as (text & args & Hev & Hpty).
  - vm_compute. discriminate.
  - reflexivity.
  - exists text, args. split; [exact Hev |].
    apply Hpty. exists "", " systemctl stop db". reflexivity.
Defined.


(** ** More on Backup and Restore *)




Lemma showOutput_events what outputStr w :
  exists l,
    events (snd (showOutput what outputStr w)) = append (events w) l
    /\ invoked l = [].
Proof.
  unfold showOutput.
  destruct (200 <? String.length outputStr)%nat;
    [eexists [_]; split; reflexivity |].
  destruct (0 <? String.length outputStr)%nat;
    [eexists [_]; split; reflexivity |].
  exists []. cbn. unfold append. now rewrite app_nil_r.
Qed.

(** X14.  With a backup command that is not blank, [Backup] makes
    exactly one [CombinedOutput] call, after some output and before some
    more: [sh -c] with the command for a local source, [ssh] with the
    command as last argument for a remote one.  It returns [nil] when that
    call reports no error; otherwise (the program failed, or could not be
    started) it returns the call's error wrapped in "backup command
    execution failed for source" with the whole output attached. *)
Theorem Backup_one_invocation os dmm w :
  strings.TrimSpace dmm.(Source).(BackupCmd) <> "" ->
  let source := dmm.(Source) in
  let sourcePath :=
    if isRemote source
    then source.(Username) ++ "@" ++ source.(HostIP) ++ ":"
         ++ source.(DataPath)
    else source.(DataPath) in
  exists before name args after,
    let w0 :=
      {| events := append w.(events) before; tempDirs := w.(tempDirs) |} in
    events (snd (Backup os dmm w))
    = append w.(events) (append before (EvExec name args :: after))
    /\ invoked before = [] /\ invoked after = []
    /\ last args "" = source.(BackupCmd)
    /\ (isRemote source = false ->
        name = "sh" /\ args = ["-c"; source.(BackupCmd)])
    /\ (isRemote source = true -> name = "ssh")
    /\ fst (Backup os dmm w)
       = match snd (os.(runCommand) w0 name args) with
         | None => None
         | Some msg =>
           Some (Wrapf
                   ("backup command execution failed for source '"
                    ++ sourcePath ++ "': ")
                   (OSError msg)
                   (nl ++ "Output:" ++ nl
                    ++ fst (os.(runCommand) w0 name args)))
         end.
Proof.
  intros Hc source sourcePath. subst sourcePath source.
  unfold Backup. rewrite (proj2 (isEmpty_false _) Hc).
  unfold bind.
  set (announce := if isRemote (Source dmm) then _ else _).
  assert (Ha : exists text, announce w = (tt, log (EvStdout text) w)).
  { subst announce. destruct (isRemote (Source dmm)); eexists; reflexivity. }
  destruct Ha as [text1 Ha]. rewrite Ha. unfold Printf.
  set (w2 := log _ (log _ w)).
  destruct (executeCommand_runs os (BackupCmd (Source dmm)) (Source dmm)
              (RsyncOptions dmm) w2 Hc)
    as (text3 & name & args & He & Hlast & Hlocal & Hremote).
  cbv zeta in He. rewrite He.
  set (w0 := log (EvStdout text3) w2) in *.
  assert (Hw0 :
    {| events :=
         append (events w)
           [EvStdout text1;
            EvStdout ("Backup command: " ++ BackupCmd (Source dmm) ++ nl);
            EvStdout text3];
       tempDirs := tempDirs w |} = w0).
  { subst w0 w2. unfold log, append. cbn [events tempDirs].
    rewrite <- !app_assoc. reflexivity. }
  destruct (runCommand os w0 name args) as [out [msg |]] eqn:Hrun;
    cbn [fst snd option_map].
  - exists [EvStdout text1;
            EvStdout ("Backup command: " ++ BackupCmd (Source dmm) ++ nl);
            EvStdout text3], name, args, [].
    cbv zeta.
    rewrite Hw0.
    rewrite Hrun. cbn [fst snd ret].
    repeat split; try assumption; try reflexivity.
    + subst w0 w2. cbn. unfold append. rewrite <- !app_assoc. reflexivity.
    + now apply Hlocal.
    + now apply Hlocal.
  - unfold ret.
    destruct (showOutput_events "Backup" out (log (EvExec name args) w0))
      as (after & Hev & Hsp).
    exists [EvStdout text1;
            EvStdout ("Backup command: " ++ BackupCmd (Source dmm) ++ nl);
            EvStdout text3], name, args, after.
    cbv zeta.
    rewrite Hw0.
    rewrite Hrun.
    destruct (showOutput "Backup" out (log (EvExec name args) w0))
      as [[] w4].
    cbn [fst snd] in *.
    repeat split; try assumption; try reflexivity.
    + rewrite Hev. subst w0 w2. cbn. unfold append.
      rewrite <- !app_assoc. reflexivity.
    + now apply Hlocal.
    + now apply Hlocal.
Qed.

Lemma Backup_one_invocation_witness :
  exists before name args after,
    events (snd (Backup failingOS backupTask emptyWorld))
    = append (events emptyWorld) (append before (EvExec name args :: after))
    /\ name = "sh"
    /\ args = ["-c"; "tar -cf /src/dump.tar /var/lib/data"]
    /\ fst (Backup failingOS backupTask emptyWorld)
       = Some (Wrapf "backup command execution failed for source '/src': "
                 (OSError "exit status 1") (nl ++ "Output:" ++ nl)).
Proof.
  destruct (Backup_one_invocation failingOS backupTask emptyWorld)
    as (before & name & args & after & Hev & _ & _ & _ & Hlocal & _ & Hres).
  - vm_compute. discriminate.
  - exists before, name, args, after. destruct (Hlocal eq_refl) as [Hn Ha].
    split; [exact Hev | split; [exact Hn | split; [exact Ha | exact Hres]]].
Defined.

(** X15.  With a restore command that is not blank, [Restore] makes
    exactly one [CombinedOutput] call, after some output and before some
    more: [sh -c] with the command for a local destination, [ssh] with the
    command as last argument for a remote one.  It returns [nil] when that
    call reports no error; otherwise (the program failed, or could not be
    started) it returns the call's error wrapped in "restore command
    execution failed for destination" with the whole output attached. *)
Theorem Restore_one_invocation os dmm w :
  strings.TrimSpace dmm.(Destination).(RestoreCmd) <> "" ->
  let destination := dmm.(Destination) in
  let destinationDataPath :=
    if isRemote destination
    then destination.(Username) ++ "@" ++ destination.(HostIP) ++ ":"
         ++ destination.(DataPath)
    else destination.(DataPath) in
  exists before name args after,
    let w0 :=
      {| events := append w.(events) before; tempDirs := w.(tempDirs) |} in
    events (snd (Restore os dmm w))
    = append w.(events) (append before (EvExec name args :: after))
    /\ invoked before = [] /\ invoked after = []
    /\ last args "" = destination.(RestoreCmd)
    /\ (isRemote destination = false ->
        name = "sh" /\ args = ["-c"; destination.(RestoreCmd)])
    /\ (isRemote destination = true -> name = "ssh")
    /\ fst (Restore os dmm w)
       = match snd (os.(runCommand) w0 name args) with
         | None => None
         | Some msg =>
           Some (Wrapf
                   ("restore command execution failed for destination '"
                    ++ destinationDataPath ++ "': ")
                   (OSError msg)
                   (nl ++ "Output:" ++ nl
                    ++ fst (os.(runCommand) w0 name args)))
         end.
Proof.
  intros Hc destination destinationDataPath. subst destinationDataPath destination.
  unfold Restore. rewrite (proj2 (isEmpty_false _) Hc).
  unfold bind.
  set (announce := if isRemote (Destination dmm) then _ else _).
  assert (Ha : exists text, announce w = (tt, log (EvStdout text) w)).
  { subst announce. destruct (isRemote (Destination dmm)); eexists; reflexivity. }
  destruct Ha as [text1 Ha]. rewrite Ha. unfold Printf.
  set (w2 := log _ (log _ w)).
  destruct (executeCommand_runs os (RestoreCmd (Destination dmm)) (Destination dmm)
              (RsyncOptions dmm) w2 Hc)
    as (text3 & name & args & He & Hlast & Hlocal & Hremote).
  cbv zeta in He. rewrite He.
  set (w0 := log (EvStdout text3) w2) in *.
  assert (Hw0 :
    {| events :=
         append (events w)
           [EvStdout text1;
            EvStdout ("Restore command: " ++ RestoreCmd (Destination dmm) ++ nl);
            EvStdout text3];
       tempDirs := tempDirs w |} = w0).
  { subst w0 w2. unfold log, append. cbn [events tempDirs].
    rewrite <- !app_assoc. reflexivity. }
  destruct (runCommand os w0 name args) as [out [msg |]] eqn:Hrun;
    cbn [fst snd option_map].
  - exists [EvStdout text1;
            EvStdout ("Restore command: " ++ RestoreCmd (Destination dmm) ++ nl);
            EvStdout text3], name, args, [].
    cbv zeta.
    rewrite Hw0.
    rewrite Hrun. cbn [fst snd ret].
    repeat split; try assumption; try reflexivity.
    + subst w0 w2. cbn. unfold append. rewrite <- !app_assoc. reflexivity.
    + now apply Hlocal.
    + now apply Hlocal.
  - unfold ret.
    destruct (showOutput_events "Restore" out (log (EvExec name args) w0))
      as (after & Hev & Hsp).
    exists [EvStdout text1;
            EvStdout ("Restore command: " ++ RestoreCmd (Destination dmm) ++ nl);
            EvStdout text3], name, args, after.
    cbv zeta.
    rewrite Hw0.
    rewrite Hrun.
    destruct (showOutput "Restore" out (log (EvExec name args) w0))
      as [[] w4].
    cbn [fst snd] in *.
    repeat split; try assumption; try reflexivity.
    + rewrite Hev. subst w0 w2. cbn. unfold append.
      rewrite <- !app_assoc. reflexivity.
    + now apply Hlocal.
    + now apply Hlocal.
Qed.

Lemma Restore_one_invocation_witness :
  exists before name args after,
    events (snd (Restore quietOS restoreOnlyTask emptyWorld))
    = append (events emptyWorld) (append before (EvExec name args :: after))
    /\ name = "ssh"
    /\ last args "" = "sudo tar -xf /dst/dump.tar"
    /\ fst (Restore quietOS restoreOnlyTask emptyWorld) = None.
Proof.
  destruct (Restore_one_invocation quietOS restoreOnlyTask emptyWorld)
    as (before & name & args & after & Hev & _ & _ & Hlast & _ & Hremote
        & Hres).
  - vm_compute. discriminate.
  - exists before, name, args, after.
    split; [exact Hev |].
    split; [exact (Hremote eq_refl) |].
    split; [exact Hlast | exact Hres].
Defined.

(** X16.  [Backup] depends on the source endpoint and the host-key
    option only, [Restore] on the destination endpoint and the host-key
    option only: the other endpoint and the other options change
    nothing. *)
Theorem Backup_Restore_endpoint_only os dmm dmm' w :
  dmm.(RsyncOptions).(InsecureSkipHostKeyVerification)
  = dmm'.(RsyncOptions).(InsecureSkipHostKeyVerification) ->
  (dmm.(Source) = dmm'.(Source) -> Backup os dmm w = Backup os dmm' w)
  /\ (dmm.(Destination) = dmm'.(Destination) ->
      Restore os dmm w = Restore os dmm' w).
Proof.
  intros Ho. split; intros He.
  - unfold Backup, executeCommand. now rewrite He, Ho.
  - unfold Restore, executeCommand. now rewrite He, Ho.
Qed.

Lemma Backup_Restore_endpoint_only_witness :
  Backup quietOS backupNoDestinationTask emptyWorld
  = Backup quietOS backupTask emptyWorld.
Proof.
  apply (proj1 (Backup_Restore_endpoint_only quietOS backupNoDestinationTask
                  backupTask emptyWorld eq_refl)).
  reflexivity.
Defined.



(** ** The whole migration *)





(** X18.  [MigrateData] returns [nil] only for a task that passes
    validation. *)
Theorem MigrateData_success_valid os dmm w :
  fst (MigrateData os dmm w) = None -> Validate dmm = None.
Proof.
  unfold MigrateData, bind, Printf, ret.
  destruct (nonEmpty (strings.TrimSpace (BackupCmd (Source dmm)))).
  - destruct (Backup os dmm _) as [[e1 |] w1]; [discriminate |].
    destruct (Transfer os dmm _) as [[e2 |] w2] eqn:HT; [discriminate |].
    intros _. eapply Transfer_nil_valid. rewrite HT. reflexivity.
  - destruct (Transfer os dmm _) as [[e2 |] w2] eqn:HT; [discriminate |].
    intros _. eapply Transfer_nil_valid. rewrite HT. reflexivity.
Qed.

Lemma MigrateData_success_valid_witness : Validate restoreOnlyTask = None.
Proof.
  apply (MigrateData_success_valid quietOS restoreOnlyTask emptyWorld).
  reflexivity.
Defined.

(** X19.  Validation does not guard the backup: on a task that fails
    validation but has a backup command, [MigrateData] runs [Backup]
    first.  If the backup fails its error is returned; if it succeeds, the
    run then stops at "Step 2" with the validation error, the backup
    having been made. *)
Theorem MigrateData_backup_before_validation os dmm w verr :
  strings.TrimSpace dmm.(Source).(BackupCmd) <> "" ->
  Validate dmm = Some verr ->
  MigrateData os dmm w
  = (let (berr, w2) :=
       Backup os dmm (log (EvStdout ("Step 1: Backing up data..." ++ nl)) w)
     in
     match berr with
     | Some err => (Some (Wrapf "backup operation failed: " err ""), w2)
     | None =>
       (Some (Wrapf "data transfer failed: "
                (Wrapf "rsync task validation failed: " verr "") ""),
        log (EvStdout ("Step 2: Transferring data to destination..." ++ nl))
          (log (EvStdout ("Backup completed successfully!" ++ nl)) w2))
     end).
Proof.
  intros Hb Hv. apply nonEmpty_true in Hb.
  unfold MigrateData. rewrite Hb. unfold bind, Printf, ret.
  destruct (Backup os dmm _) as [[e1 |] w1]; [reflexivity |].
  unfold Transfer. now rewrite Hv.
Qed.

Lemma MigrateData_backup_before_validation_witness :
  MigrateData quietOS backupNoDestinationTask emptyWorld
  = (Some (Wrapf "data transfer failed: "
             (Wrapf "rsync task validation failed: "
                (Errorf "destination path must be provided for rsync task")
                "")
             ""),
     {| events :=
          [EvStdout ("Step 1: Backing up data..." ++ nl);
           EvStdout ("Executing backup command locally..." ++ nl);
           EvStdout ("Backup command: tar -cf /src/dump.tar /var/lib/data"
                     ++ nl);
           EvStdout ("Executing local command..." ++ nl);
           EvExec "sh" ["-c"; "tar -cf /src/dump.tar /var/lib/data"];
           EvStdout ("Backup completed successfully!" ++ nl);
           EvStdout ("Step 2: Transferring data to destination..." ++ nl)];
        tempDirs := [] |}).
Proof.
  rewrite (MigrateData_backup_before_validation quietOS
             backupNoDestinationTask emptyWorld
             (Errorf "destination path must be provided for rsync task")).
  - reflexivity.
  - vm_compute. discriminate.
  - reflexivity.
Defined.

(** X20.  When the backup command is set and [Backup] fails,
    [MigrateData] returns that error wrapped in "backup operation failed"
    and stops where [Backup] stopped: no transfer, no restore. *)
Theorem MigrateData_backup_failure_aborts os dmm w err w2 :
  strings.TrimSpace dmm.(Source).(BackupCmd) <> "" ->
  Backup os dmm (log (EvStdout ("Step 1: Backing up data..." ++ nl)) w)
  = (Some err, w2) ->
  MigrateData os dmm w
  = (Some (Wrapf "backup operation failed: " err ""), w2).
Proof.
  intros Hb HB. apply nonEmpty_true in Hb.
  unfold MigrateData. rewrite Hb. unfold bind, Printf, ret.
  now rewrite HB.
Qed.

Lemma MigrateData_backup_failure_aborts_witness :
  MigrateData failingOS backupTask emptyWorld
  = (Some (Wrapf "backup operation failed: "
             (Wrapf "backup command execution failed for source '/src': "
                (OSError "exit status 1") (nl ++ "Output:" ++ nl))
             ""),
     {| events :=
          [EvStdout ("Step 1: Backing up data..." ++ nl);
           EvStdout ("Executing backup command locally..." ++ nl);
           EvStdout ("Backup command: tar -cf /src/dump.tar /var/lib/data"
                     ++ nl);
           EvStdout ("Executing local command..." ++ nl);
           EvExec "sh" ["-c"; "tar -cf /src/dump.tar /var/lib/data"]];
        tempDirs := [] |}).
Proof.
  apply (MigrateData_backup_failure_aborts failingOS backupTask emptyWorld).
  - vm_compute. discriminate.
  - reflexivity.
Defined.

(** X21.  Every error [MigrateData] returns is the error of the phase
    that failed, wrapped under that phase's name, and the run ends where
    that phase stopped: either a backup command is set and [Backup], run
    after the "Step 1" line, failed ("backup operation failed"); or the
    backup was skipped or succeeded and [Transfer], run after the "Step 2"
    line, failed ("data transfer failed"); or [Transfer] then succeeded, a
    restore command is set and [Restore], run after the "Step 3" line,
    failed ("restore operation failed"). *)
Theorem MigrateData_error_names_phase os dmm w err :
  fst (MigrateData os dmm w) = Some err ->
  let w' := snd (MigrateData os dmm w) in
  let line (text : string) (w0 : World) := log (EvStdout (text ++ nl)) w0 in
  let step1 := line "Step 1: Backing up data..." w in
  let backupDone (wT : World) :=
    (strings.TrimSpace dmm.(Source).(BackupCmd) = "" /\ wT = w)
    \/ (strings.TrimSpace dmm.(Source).(BackupCmd) <> ""
        /\ exists wB,
             Backup os dmm step1 = (None, wB)
             /\ wT = line "Backup completed successfully!" wB) in
  let step2 := line "Step 2: Transferring data to destination..." in
  let step3 (wR : World) :=
    line "Step 3: Restoring data..."
         (line "Data transfer completed successfully!" wR) in
  exists cause,
    (strings.TrimSpace dmm.(Source).(BackupCmd) <> ""
     /\ Backup os dmm step1 = (Some cause, w')
     /\ err = Wrapf "backup operation failed: " cause "")
    \/ (exists wT,
           backupDone wT
           /\ Transfer os dmm (step2 wT) = (Some cause, w')
           /\ err = Wrapf "data transfer failed: " cause "")
    \/ (exists wT wR,
           backupDone wT
           /\ Transfer os dmm (step2 wT) = (None, wR)
           /\ strings.TrimSpace dmm.(Destination).(RestoreCmd) <> ""
           /\ Restore os dmm (step3 wR) = (Some cause, w')
           /\ err = Wrapf "restore operation failed: " cause "").
Proof.
  cbv zeta. unfold MigrateData, bind, Printf, ret.
  destruct (nonEmpty (strings.TrimSpace (BackupCmd (Source dmm)))) eqn:Hb.
  - apply nonEmpty_true in Hb.
    destruct (Backup os dmm _) as [[e1 |] w1] eqn:HB; cbn [fst snd].
    { intros H. inversion H. exists e1. left. now repeat split. }
    assert (Hdone :
      strings.TrimSpace (BackupCmd (Source dmm)) = ""
      /\ log (EvStdout ("Backup completed successfully!" ++ nl)) w1 = w
      \/ strings.TrimSpace (BackupCmd (Source dmm)) <> ""
         /\ exists wB,
              (None : option error, w1) = (None, wB)
              /\ log (EvStdout ("Backup completed successfully!" ++ nl)) w1
                 = log (EvStdout ("Backup completed successfully!" ++ nl))
                       wB).
    { right. split; [exact Hb |]. exists w1. now split. }
    destruct (Transfer os dmm _) as [[e2 |] w2] eqn:HT; cbn [fst snd].
    { intros H. inversion H. exists e2. right. left.
      exists (log (EvStdout ("Backup completed successfully!" ++ nl)) w1).
      now repeat split. }
    destruct (nonEmpty (strings.TrimSpace (RestoreCmd (Destination dmm))))
      eqn:Hr; [| discriminate].
    apply nonEmpty_true in Hr.
    destruct (Restore os dmm _) as [[e3 |] w3] eqn:HR; cbn [fst snd];
      [| discriminate].
    intros H. inversion H. exists e3. right. right.
    exists (log (EvStdout ("Backup completed successfully!" ++ nl)) w1), w2.
    now repeat split.
  - apply nonEmpty_false in Hb.
    assert (Hdone :
      strings.TrimSpace (BackupCmd (Source dmm)) = "" /\ w = w
      \/ strings.TrimSpace (BackupCmd (Source dmm)) <> ""
         /\ exists wB,
              Backup os dmm
                (log (EvStdout ("Step 1: Backing up data..." ++ nl)) w)
              = (None, wB)
              /\ w = log (EvStdout ("Backup completed successfully!" ++ nl))
                         wB).
    { left. now split. }
    destruct (Transfer os dmm _) as [[e2 |] w2] eqn:HT; cbn [fst snd].
    { intros H. inversion H. exists e2. right. left. exists w.
      now repeat split. }
    destruct (nonEmpty (strings.TrimSpace (RestoreCmd (Destination dmm))))
      eqn:Hr; [| discriminate].
    apply nonEmpty_true in Hr.
    destruct (Restore os dmm _) as [[e3 |] w3] eqn:HR; cbn [fst snd];
      [| discriminate].
    intros H. inversion H. exists e3. right. right. exists w, w2.
    now repeat split.
Qed.

Lemma MigrateData_error_names_phase_witness :
  exists cause,
    Backup failingOS backupTask
      (log (EvStdout ("Step 1: Backing up data..." ++ nl)) emptyWorld)
    = (Some cause, snd (MigrateData failingOS backupTask emptyWorld))
    /\ fst (MigrateData failingOS backupTask emptyWorld)
       = Some (Wrapf "backup operation failed: " cause "").
Proof.
  destruct (MigrateData_error_names_phase failingOS backupTask emptyWorld
              _ eq_refl)
    as [cause [(_ & HB & He) | [(wT & _ & _ & He) | (wT & wR & _ & _ & _ & _ & He)]]].
  - exists cause. split; [exact HB |]. rewrite <- He. reflexivity.
  - discriminate He.
  - discriminate He.
Defined.
